(** * ENTSO-E retrieval and yearly merge: a shallow embedding

    The development follows [scripts/entsoe_retrieval.py] (query builder,
    response parser, series assembler, monthly fetch driver) and
    [scripts/entsoe_preprocessing.py] (yearly merge engine), and the two
    blocks of [main.py] that call them.

    Python values are modelled as the code has them: text as [string],
    integers and instants as [Z], dictionaries that are iterated in insertion
    order as association lists, exceptions as the left summand of [result]. *)

From Stdlib Require Import List String Ascii ZArith Lia Bool Permutation Sorted.
Import ListNotations.

Local Open Scope string_scope.
Local Open Scope Z_scope.
#[local] Set Warnings "-register-all".

(** ** Python primitives *)

Module Py.

(** Exceptions the modelled code can raise. *)
Inductive exn : Type :=
| KeyError
| TypeError
| ValueError
| AttributeError
| IndexError
| OverflowError
| ExpatError          (* xmltodict.parse on a body that is not well-formed *)
| RequestException    (* requests.get: the network failed *)
| OSError.            (* pandas.read_csv: the file cannot be read *)

(** A computation that returns a value or raises. *)
Definition result (A : Type) : Type := (exn + A)%type.

Definition ret {A} (a : A) : result A := inr a.
Definition raise {A} (e : exn) : result A := inl e.
Definition bind {A B} (m : result A) (k : A -> result B) : result B :=
  match m with
  | inl e => inl e
  | inr a => k a
  end.

Definition of_option {A} (e : exn) (o : option A) : result A :=
  match o with
  | Some a => inr a
  | None => inl e
  end.

(** [map_r f l]: a list comprehension whose body can raise; the first
    exception, in list order, ends it. *)
Fixpoint map_r {A B} (f : A -> result B) (l : list A) : result (list B) :=
  match l with
  | [] => inr []
  | a :: l' =>
      match f a with
      | inl e => inl e
      | inr b =>
          match map_r f l' with
          | inl e => inl e
          | inr bs => inr (b :: bs)
          end
      end
  end.

(** [d.get(k)] on a dictionary with text keys, kept as an association list
    in insertion order. *)
Fixpoint dict_get {V} (k : string) (d : list (string * V)) : option V :=
  match d with
  | [] => None
  | (k', v) :: d' => if String.eqb k' k then Some v else dict_get k d'
  end.

(** [s.split(sep)] for a one-character separator. *)
Fixpoint split (sep : ascii) (s : string) : list string :=
  match s with
  | EmptyString => [EmptyString]
  | String c rest =>
      if Ascii.eqb c sep then EmptyString :: split sep rest
      else
        match split sep rest with
        | [] => [String c EmptyString]
        | p :: ps => String c p :: ps
        end
  end.

(** [sep.join(l)]. *)
Definition join (sep : string) (l : list string) : string := String.concat sep l.

(** A Python index: negative indices count from the end. *)
Definition norm_index {A} (l : list A) (i : Z) : Z :=
  if i <? 0 then i + Z.of_nat (List.length l) else i.

(** [l[i]]; [None] stands for IndexError. *)
Definition getitem {A} (l : list A) (i : Z) : option A :=
  let j := norm_index l i in
  if j <? 0 then None else nth_error l (Z.to_nat j).

(** [l[lo:hi]]: bounds are clipped, never an error. *)
Definition slice {A} (l : list A) (lo hi : Z) : list A :=
  let n := Z.of_nat (List.length l) in
  let clip i := Z.max 0 (Z.min n (norm_index l i)) in
  let a := clip lo in
  let b := clip hi in
  firstn (Z.to_nat (b - a)) (skipn (Z.to_nat a) l).

(** [s[:n]]. *)
Definition take (n : nat) (s : string) : string := String.substring 0 n s.

(** Does [p] start [s]? *)
Definition startswith (p s : string) : bool := String.prefix p s.

(** [s.replace(old, new)], scanning left to right without overlap; [skip]
    counts the characters of a match that are still to be dropped. [old] is
    not empty in any use below. *)
Fixpoint replace_from (skip : nat) (old new s : string) : string :=
  match s with
  | EmptyString => EmptyString
  | String c rest =>
      match skip with
      | S k => replace_from k old new rest
      | O =>
          if startswith old s
          then new ++ replace_from (Nat.pred (String.length old)) old new rest
          else String c (replace_from O old new rest)
      end
  end.

Definition replace (old new s : string) : string := replace_from O old new s.

(** [sub in s] for two strings: a substring test. *)
Fixpoint contains (sub s : string) : bool :=
  startswith sub s ||
  match s with
  | EmptyString => false
  | String _ rest => contains sub rest
  end.

(** [os.path.basename(p)]: what follows the last slash. *)
Definition basename (p : string) : string :=
  last (split "/" p) EmptyString.

(** [os.path.join(a, b)] for a relative [b]. *)
Definition path_join (a b : string) : string :=
  if startswith "/" b then b
  else if String.eqb a "" then b
  else if String.eqb (String.substring (Nat.pred (String.length a)) 1 a) "/" then a ++ b
  else a ++ "/" ++ b.

(** Decimal digits. *)
Definition digit_of (c : ascii) : option Z :=
  let n := Z.of_nat (nat_of_ascii c) in
  if (48 <=? n) && (n <=? 57) then Some (n - 48) else None.

Definition char_of_digit (d : Z) : ascii := ascii_of_nat (Z.to_nat (48 + d mod 10)).

(** The digits of [n] on exactly [width] places (the places above are cut). *)
Fixpoint pad (width : nat) (n : Z) : string :=
  match width with
  | O => EmptyString
  | S w => pad w (n / 10) ++ String (char_of_digit n) EmptyString
  end.

(** [str(n)] for an integer, at most 19 digits. *)
Fixpoint count_digits (fuel : nat) (n : Z) : nat :=
  match fuel with
  | O => 1%nat
  | S f => if n <? 10 then 1%nat else S (count_digits f (n / 10))
  end.

Definition str_int (n : Z) : string :=
  if n <? 0 then "-" ++ pad (count_digits 18 (- n)) (- n)
  else pad (count_digits 18 n) n.

(** A run of digits read as a number; [None] on an empty run or on any other
    character. *)
Fixpoint digits_value (acc : Z) (s : string) : option Z :=
  match s with
  | EmptyString => Some acc
  | String c rest =>
      match digit_of c with
      | Some d => digits_value (10 * acc + d) rest
      | None => None
      end
  end.

Definition nat_literal (s : string) : option Z :=
  match s with
  | EmptyString => None
  | _ => digits_value 0 s
  end.

(** [int(s)] on text: an optional sign and decimal digits. *)
Definition int_of_string (s : string) : result Z :=
  match s with
  | String "-" rest => of_option ValueError (option_map Z.opp (nat_literal rest))
  | String "+" rest => of_option ValueError (nat_literal rest)
  | _ => of_option ValueError (nat_literal s)
  end.

(** The number a decimal literal denotes: [mantissa / 10 ^ places]. Python
    rounds it to a float64; the rounding plays no part below. *)
Record number : Type := { mantissa : Z; places : nat }.

(** [float(s)] on text: an optional sign, digits, and an optional fraction. *)
Definition unsigned_number (s : string) : option number :=
  match split "." s with
  | [i] => option_map (fun m => {| mantissa := m; places := 0 |}) (nat_literal i)
  | [i; f] =>
      match digits_value 0 i, digits_value 0 f with
      | Some a, Some b =>
          if String.eqb (i ++ f) "" then None
          else Some {| mantissa := a * 10 ^ Z.of_nat (String.length f) + b;
                       places := String.length f |}
      | _, _ => None
      end
  | _ => None
  end.

Definition float_of_string (s : string) : result number :=
  match s with
  | String "-" rest =>
      of_option ValueError
        (option_map (fun n => {| mantissa := - mantissa n; places := places n |})
           (unsigned_number rest))
  | String "+" rest => of_option ValueError (unsigned_number rest)
  | _ => of_option ValueError (unsigned_number s)
  end.

(** [s.title()]: the first letter of every run of letters in upper case, the
    others in lower case. *)
Definition is_upper (c : ascii) : bool :=
  let n := nat_of_ascii c in (Nat.leb 65 n && Nat.leb n 90)%bool.
Definition is_lower (c : ascii) : bool :=
  let n := nat_of_ascii c in (Nat.leb 97 n && Nat.leb n 122)%bool.
Definition to_upper (c : ascii) : ascii :=
  if is_lower c then ascii_of_nat (nat_of_ascii c - 32) else c.
Definition to_lower (c : ascii) : ascii :=
  if is_upper c then ascii_of_nat (nat_of_ascii c + 32) else c.

Fixpoint title_from (in_word : bool) (s : string) : string :=
  match s with
  | EmptyString => EmptyString
  | String c rest =>
      let letter := (is_upper c || is_lower c)%bool in
      String (if in_word then to_lower c else to_upper c) (title_from letter rest)
  end.

Definition title (s : string) : string := title_from false s.

End Py.

Notation "x <- m ;; k" := (Py.bind m (fun x => k))
  (at level 61, m at next level, right associativity).

(** ** Dates and times *)

Module Datetime.
Import Py.

(** A [datetime.datetime]: [wall] counts the seconds from 1970-01-01T00:00:00
    as read on the object's own clock, [utcoffset] is the offset of that clock
    from UTC in minutes ([None] for a naive value). Arithmetic with a
    [timedelta] works on the wall clock and keeps the offset, as Python's does. *)
Record datetime : Type := { wall : Z; utcoffset : option Z }.

(** The instant on the UTC clock: what two aware values are compared by. *)
Definition utc_seconds (dt : datetime) : Z :=
  wall dt - 60 * match utcoffset dt with Some o => o | None => 0 end.

Definition is_leap (y : Z) : bool :=
  ((y mod 4 =? 0) && negb (y mod 100 =? 0)) || (y mod 400 =? 0).

Definition days_in_month (y m : Z) : Z :=
  if (m =? 2) then (if is_leap y then 29 else 28)
  else if (m =? 4) || (m =? 6) || (m =? 9) || (m =? 11) then 30
  else 31.

(** Days from 1970-01-01 to the civil date [y]-[m]-[d] (proleptic Gregorian). *)
Definition days_from_civil (y m d : Z) : Z :=
  let y' := if m <=? 2 then y - 1 else y in
  let era := y' / 400 in
  let yoe := y' - era * 400 in
  let mp := (m + 9) mod 12 in
  let doy := (153 * mp + 2) / 5 + d - 1 in
  let doe := yoe * 365 + yoe / 4 - yoe / 100 + doy in
  era * 146097 + doe - 719468.

(** The civil date of a day number: the inverse of [days_from_civil]. *)
Definition civil_from_days (z : Z) : Z * Z * Z :=
  let z' := z + 719468 in
  let era := z' / 146097 in
  let doe := z' - era * 146097 in
  let yoe := (doe - doe / 1460 + doe / 36524 - doe / 146096) / 365 in
  let doy := doe - (365 * yoe + yoe / 4 - yoe / 100) in
  let mp := (5 * doy + 2) / 153 in
  let d := doy - (153 * mp + 2) / 5 + 1 in
  let m := if mp <? 10 then mp + 3 else mp - 9 in
  let y := yoe + era * 400 in
  (if m <=? 2 then y + 1 else y, m, d).

(** [datetime(y, m, d, hh, mi, ss, tzinfo)]; [None] stands for ValueError. *)
Definition make (y m d hh mi ss : Z) (tz : option Z) : option datetime :=
  if (1 <=? y) && (y <=? 9999) && (1 <=? m) && (m <=? 12) &&
     (1 <=? d) && (d <=? days_in_month y m) &&
     (0 <=? hh) && (hh <? 24) && (0 <=? mi) && (mi <? 60) && (0 <=? ss) && (ss <? 60)
  then Some {| wall := days_from_civil y m d * 86400 + hh * 3600 + mi * 60 + ss;
               utcoffset := tz |}
  else None.

(** A UTC instant given by its fields; 1970-01-01T00:00 when they are no date. *)
Definition utc (y m d hh mi : Z) : datetime :=
  match make y m d hh mi 0 (Some 0) with
  | Some dt => dt
  | None => {| wall := 0; utcoffset := Some 0 |}
  end.

Definition min_wall : Z := days_from_civil 1 1 1 * 86400.
Definition max_wall : Z := days_from_civil 9999 12 31 * 86400 + 86399.

(** [dt + timedelta(minutes=k)]. *)
Definition add_minutes (dt : datetime) (k : Z) : result datetime :=
  let w := wall dt + 60 * k in
  if (min_wall <=? w) && (w <=? max_wall)
  then ret {| wall := w; utcoffset := utcoffset dt |}
  else raise OverflowError.

Definition year (dt : datetime) : Z := fst (fst (civil_from_days (wall dt / 86400))).
Definition month (dt : datetime) : Z := snd (fst (civil_from_days (wall dt / 86400))).
Definition day (dt : datetime) : Z := snd (civil_from_days (wall dt / 86400)).
Definition hour (dt : datetime) : Z := (wall dt mod 86400) / 3600.
Definition minute (dt : datetime) : Z := (wall dt mod 3600) / 60.
Definition second (dt : datetime) : Z := wall dt mod 60.

Definition offset_text (tz : option Z) : string :=
  match tz with
  | None => ""
  | Some o =>
      (if o <? 0 then "-" else "+") ++ pad 2 (Z.abs o / 60) ++ ":" ++ pad 2 (Z.abs o mod 60)
  end.

(** [dt.isoformat(sep)]. *)
Definition isoformat_sep (sep : string) (dt : datetime) : string :=
  pad 4 (year dt) ++ "-" ++ pad 2 (month dt) ++ "-" ++ pad 2 (day dt) ++ sep ++
  pad 2 (hour dt) ++ ":" ++ pad 2 (minute dt) ++ ":" ++ pad 2 (second dt) ++
  offset_text (utcoffset dt).

Definition isoformat (dt : datetime) : string := isoformat_sep "T" dt.

(** [str(dt)]. *)
Definition str (dt : datetime) : string := isoformat_sep " " dt.

(** [dt.strftime('%Y%m%d')] and [dt.strftime('%Y%m%d%H%M')]. *)
Definition strftime_Ymd (dt : datetime) : string :=
  pad 4 (year dt) ++ pad 2 (month dt) ++ pad 2 (day dt).
Definition strftime_YmdHM (dt : datetime) : string :=
  strftime_Ymd dt ++ pad 2 (hour dt) ++ pad 2 (minute dt).

Definition month_name (m : Z) : string :=
  nth (Z.to_nat (m - 1))
    ["January"; "February"; "March"; "April"; "May"; "June"; "July"; "August";
     "September"; "October"; "November"; "December"] "".

(** [dt.strftime('%B %Y')]. *)
Definition strftime_BY (dt : datetime) : string :=
  month_name (month dt) ++ " " ++ pad 4 (year dt).

(** The offset suffix of an ISO text: nothing, or a sign and HH:MM. *)
Definition parse_offset (s : string) : option (option Z) :=
  match s with
  | EmptyString => Some None
  | String sign rest =>
      if (String.length rest =? 5)%nat && String.eqb (String.substring 2 1 rest) ":" then
        match nat_literal (String.substring 0 2 rest), nat_literal (String.substring 3 2 rest) with
        | Some h, Some m =>
            if (h <? 24) && (m <? 60) then
              if Ascii.eqb sign "+" then Some (Some (h * 60 + m))
              else if Ascii.eqb sign "-" then Some (Some (- (h * 60 + m)))
              else None
            else None
        | _, _ => None
        end
      else None
  end.

(** [datetime.fromisoformat(s)] on the texts [isoformat] writes:
    YYYY-MM-DD, one separator, HH:MM, optional :SS, optional offset. Any other
    text is a ValueError. *)
Definition fromisoformat (s : string) : result datetime :=
  let field i n :=
    let t := String.substring i n s in
    if (String.length t =? n)%nat then nat_literal t else None in
  let is_at i c := String.eqb (String.substring i 1 s) c in
  if (16 <=? String.length s)%nat && is_at 4%nat "-" && is_at 7%nat "-" && is_at 13%nat ":" then
    match field 0%nat 4%nat, field 5%nat 2%nat, field 8%nat 2%nat,
          field 11%nat 2%nat, field 14%nat 2%nat with
    | Some y, Some m, Some d, Some hh, Some mi =>
        let with_seconds := is_at 16%nat ":" in
        let ss := if with_seconds then field 17%nat 2%nat else Some 0 in
        let rest := String.substring (if with_seconds then 19 else 16)
                      (String.length s) s in
        match ss, parse_offset rest with
        | Some sec, Some tz => of_option ValueError (make y m d hh mi sec tz)
        | _, _ => raise ValueError
        end
    | _, _, _, _, _ => raise ValueError
    end
  else raise ValueError.

End Datetime.

(** ** Tables *)

Module Frame.
Import Py.

(** One row of an artifact table. The columns are those of the records the
    parser appends; [T] is the type of the timestamp column: text in a monthly
    table, a parsed instant after [pd.to_datetime] in a yearly one. *)
Record Row (T : Type) : Type := mkRow {
  timestamp : T;
  area_code : string;
  dataset : string;
  production_type : string;
  value : number;
  unit : string
}.

Arguments mkRow {T}.
Arguments timestamp {T}.
Arguments area_code {T}.
Arguments dataset {T}.
Arguments production_type {T}.
Arguments value {T}.
Arguments unit {T}.

Section Columns.
Context {T : Type}.
(** The order and the equality of the timestamp column. *)
Variable leb : T -> T -> bool.
Variable eqb : T -> T -> bool.

(** [df.sort_values('timestamp')]: ascending. The source passes no [kind],
    and which order pandas then gives to rows with equal timestamps depends
    on the type of the column and on the library; the model takes the stable
    order, in which such rows keep their input order. What holds for every
    sorting function is proved apart, in [FrameFacts.AnySorter]. *)
Fixpoint insert (r : Row T) (t : list (Row T)) : list (Row T) :=
  match t with
  | [] => [r]
  | r' :: t' =>
      if leb (timestamp r) (timestamp r') then r :: r' :: t'
      else r' :: insert r t'
  end.

Fixpoint sort_values (t : list (Row T)) : list (Row T) :=
  match t with
  | [] => []
  | r :: t' => insert r (sort_values t')
  end.

(** The subset [['timestamp', 'production_type']] of a row. *)
Definition key (r : Row T) : T * string := (timestamp r, production_type r).

Definition key_eqb (a b : T * string) : bool :=
  eqb (fst a) (fst b) && String.eqb (snd a) (snd b).

(** [df.drop_duplicates(subset=['timestamp', 'production_type'],
    keep='first')]: a row is dropped when its key was met in an earlier
    row; [seen] holds the keys met so far. *)
Fixpoint drop_seen (seen : list (T * string)) (t : list (Row T)) : list (Row T) :=
  match t with
  | [] => []
  | r :: t' =>
      if existsb (key_eqb (key r)) seen then drop_seen seen t'
      else r :: drop_seen (key r :: seen) t'
  end.

Definition drop_duplicates (t : list (Row T)) : list (Row T) := drop_seen [] t.

(** Sorting, then dropping duplicates: the rule of the series assembler,
    applied again by the yearly merge. *)
Definition sort_dedup (t : list (Row T)) : list (Row T) :=
  drop_duplicates (sort_values t).

(** The least and the greatest timestamp of a column that starts with [x]. *)
Definition column_min (x : T) (l : list T) : T :=
  fold_left (fun m y => if leb m y then m else y) l x.
Definition column_max (x : T) (l : list T) : T :=
  fold_left (fun m y => if leb y m then m else y) l x.

(** The invariant of an artifact table. *)
Definition ascending (t : list (Row T)) : Prop :=
  StronglySorted (fun a b => leb (timestamp a) (timestamp b) = true) t.
Definition distinct_keys (t : list (Row T)) : Prop :=
  ForallOrdPairs (fun a b => key_eqb (key a) (key b) = false) t.
Definition canonical (t : list (Row T)) : Prop := distinct_keys t /\ ascending t.

(** What the order and the equality of a column type satisfy. *)
Record column_order : Prop := {
  leb_total : forall a b, leb a b = true \/ leb b a = true;
  leb_trans : forall a b c, leb a b = true -> leb b c = true -> leb a c = true;
  eqb_refl : forall a, eqb a a = true;
  eqb_sym : forall a b, eqb a b = true -> eqb b a = true;
  eqb_trans : forall a b c, eqb a b = true -> eqb b c = true -> eqb a c = true;
  eqb_leb : forall a b, eqb a b = true -> leb a b = true
}.
End Columns.

(** The two column types in use. *)
Definition text_leb : string -> string -> bool := String.leb.
Definition text_eqb : string -> string -> bool := String.eqb.
Definition instant_leb (a b : Datetime.datetime) : bool :=
  Datetime.utc_seconds a <=? Datetime.utc_seconds b.
Definition instant_eqb (a b : Datetime.datetime) : bool :=
  Datetime.utc_seconds a =? Datetime.utc_seconds b.

End Frame.

(** ** The effects of a run *)

Module Run.
Import Py.

Inductive level : Type := INFO | WARNING | ERROR.

(** A metadata file: a JSON object whose values are text or a list of text. *)
Inductive json : Type :=
| JStr (s : string)
| JList (l : list string).

(** What a written file holds. *)
Inductive content : Type :=
| MonthlyCsv (t : list (Frame.Row string))
| YearlyCsv (t : list (Frame.Row Datetime.datetime))
| Json (fields : list (string * json)).

(** The trace of a run: the requests sent, the log and the files written,
    each in order of occurrence. *)
Record state : Type := mkState {
  requests : list (list (string * string));
  log : list (level * string);
  files : list (string * content)
}.

Definition initial : state := {| requests := []; log := []; files := [] |}.

(** A statement sequence: it changes the trace, and returns or raises. What
    was done before an exception stays done. *)
Definition M (A : Type) : Type := state -> result A * state.

Definition mret {A} (a : A) : M A := fun s => (inr a, s).
Definition mbind {A B} (m : M A) (k : A -> M B) : M B :=
  fun s =>
    match m s with
    | (inl e, s') => (inl e, s')
    | (inr a, s') => k a s'
    end.
Definition lift {A} (r : result A) : M A := fun s => (r, s).

Definition logging (l : level) (msg : string) : M unit :=
  fun s => (inr tt, {| requests := requests s; log := (log s ++ [(l, msg)])%list; files := files s |}).
Definition write_file (path : string) (c : content) : M unit :=
  fun s => (inr tt, {| requests := requests s; log := log s; files := (files s ++ [(path, c)])%list |}).
Definition sent (params : list (string * string)) : M unit :=
  fun s => (inr tt, {| requests := (requests s ++ [params])%list; log := log s; files := files s |}).

(** A procedure: statements that return nothing. *)
Definition proc : Type := M unit.

(** [for x in l: body(x)]. *)
Fixpoint for_each {A} (l : list A) (body : A -> M unit) : M unit :=
  match l with
  | [] => mret tt
  | x :: l' => mbind (body x) (fun _ => for_each l' body)
  end.

(** [try: body / except Exception as e: handler]. *)
Definition try_except (body : M unit) (handler : exn -> M unit) : M unit :=
  fun s =>
    match body s with
    | (inl e, s') => handler e s'
    | (inr tt, s') => (inr tt, s')
    end.

End Run.

Notation "x <~ m ;; k" := (Run.mbind m (fun x => k))
  (at level 61, m at next level, right associativity).
Notation "m ;;; k" := (Run.mbind m (fun _ => k))
  (at level 61, right associativity).

(** ** scripts/entsoe_retrieval.py *)

Module Retrieval.
Import Py Run.

Definition BASE_URL : string := "https://web-api.tp.entsoe.eu/api".

Definition BIDDING_ZONES : list (string * list (string * string)) :=
  [ ("Germany", [("10Y1001A1001A82H", "DE-LU")]);
    ("Denmark", [("10YDK-1--------W", "DK1"); ("10YDK-2--------M", "DK2")]);
    ("Sweden", [("10Y1001A1001A44P", "SE1"); ("10Y1001A1001A45N", "SE2");
                ("10Y1001A1001A46L", "SE3"); ("10Y1001A1001A47J", "SE4")]);
    ("Italy", [("10Y1001A1001A73I", "NORD"); ("10Y1001A1001A70O", "CNOR");
               ("10Y1001A1001A71M", "CSUD"); ("10Y1001A1001A788", "SUD");
               ("10Y1001A1001A74G", "SARD"); ("10Y1001A1001A75E", "SICI")]) ].

Definition PSR_TYPE_MAP : list (string * string) :=
  [ ("B01", "Biomass"); ("B02", "Fossil Brown coal/Lignite");
    ("B03", "Fossil Coal-derived gas"); ("B04", "Fossil Gas");
    ("B05", "Fossil Hard coal"); ("B06", "Fossil Oil");
    ("B07", "Fossil Oil shale"); ("B08", "Fossil Peat");
    ("B09", "Geothermal"); ("B10", "Hydro Pumped Storage");
    ("B11", "Hydro Run-of-river"); ("B12", "Hydro Reservoir");
    ("B13", "Marine"); ("B14", "Nuclear"); ("B15", "Other renewable");
    ("B16", "Solar"); ("B17", "Waste"); ("B18", "Wind Offshore");
    ("B19", "Wind Onshore"); ("B20", "Other") ].

(** The "domain" entry of a dataset: one parameter name, or a list of them. *)
Inductive domain_field : Type :=
| Domain (name : string)
| Domains (names : list string).

Record dataset_config : Type := {
  documentType : string;
  processType : string;
  domain : domain_field;
  unit : string
}.

Definition DATASETS : list (string * dataset_config) :=
  [ ("actual_load",
     {| documentType := "A65"; processType := "A16";
        domain := Domain "outBiddingZone_Domain"; unit := "MW" |});
    ("actual_generation",
     {| documentType := "A75"; processType := "A16";
        domain := Domain "in_Domain"; unit := "MW" |});
    ("day_ahead_prices",
     {| documentType := "A44"; processType := "A01";
        domain := Domains ["in_Domain"; "out_Domain"]; unit := "EUR/MWh" |});
    ("installed_capacity",
     {| documentType := "A68"; processType := "A33";
        domain := Domain "in_Domain"; unit := "MW" |}) ].

Definition format_date (dt : Datetime.datetime) : string := Datetime.strftime_YmdHM dt.

(** What [xmltodict.parse] builds from an element: [None] for an empty one,
    its text, a dictionary of its children, and a list where a child name
    repeats. *)
Inductive xml : Type :=
| XNone
| XText (s : string)
| XElem (children : list (string * xml))
| XMany (items : list xml).

(** A response of [requests.get]: [document] is what [xmltodict.parse] makes
    of [text], an ExpatError when the text is not well-formed. *)
Record response : Type := {
  status_code : Z;
  text : string;
  document : result (list (string * xml))
}.

(** Python's operations on a parsed value. *)
Definition truthy (x : xml) : bool :=
  match x with
  | XNone | XText EmptyString | XElem [] | XMany [] => false
  | _ => true
  end.

(** [x[k]]. *)
Definition subscript (x : xml) (k : string) : result xml :=
  match x with
  | XElem d => of_option KeyError (dict_get k d)
  | _ => raise TypeError
  end.

(** [x.get(k, default)]. *)
Definition get (x : xml) (k : string) (default : xml) : result xml :=
  match x with
  | XElem d => ret match dict_get k d with Some v => v | None => default end
  | _ => raise AttributeError
  end.

(** [k in x]. *)
Definition has (k : string) (x : xml) : result bool :=
  match x with
  | XElem d => ret match dict_get k d with Some _ => true | None => false end
  | XText s => ret (contains k s)
  | XMany l => ret (existsb (fun i => match i with XText s => String.eqb s k | _ => false end) l)
  | XNone => raise TypeError
  end.

(** [x if isinstance(x, list) else [x]]. *)
Definition as_list (x : xml) : list xml :=
  match x with
  | XMany l => l
  | _ => [x]
  end.

(** [a or b]. *)
Definition or_else (a b : xml) : xml := if truthy a then a else b.

(** The text of a value, for a string method; [e] is raised on anything else. *)
Definition text_of (e : exn) (x : xml) : result string :=
  match x with
  | XText s => ret s
  | _ => raise e
  end.

Definition step_minutes (resolution : xml) : Z :=
  match resolution with
  | XText r =>
      if String.eqb r "PT15M" then 15
      else if String.eqb r "PT30M" then 30
      else 60
  | _ => 60
  end.

(** The production type or price category of one series. *)
Definition production_type_of (dataset_key : string) (series : xml) : result string :=
  if String.eqb dataset_key "day_ahead_prices" then ret "Day-ahead Price"
  else
    mkt <- get series "MktPSRType" (XElem []) ;;
    psr_code <- get mkt "psrType" XNone ;;
    match psr_code with
    | XText c =>
        ret match dict_get c PSR_TYPE_MAP with
            | Some label => label
            | None => if String.eqb c "" then title dataset_key else c
            end
    | XNone => ret (title dataset_key)
    | _ => raise TypeError
    end.

(** [datetime.fromisoformat(x.replace('Z', '+00:00'))]. *)
Definition parse_instant (x : xml) : result Datetime.datetime :=
  s <- text_of AttributeError x ;;
  Datetime.fromisoformat (replace "Z" "+00:00" s).

(** The timestamp of the point at [position]. *)
Definition point_timestamp (interval_start : Datetime.datetime) (step_minutes position : Z)
  : result Datetime.datetime :=
  Datetime.add_minutes interval_start (step_minutes * (position - 1)).

(** [int(point['position'])]. *)
Definition position_of (point : xml) : result Z :=
  p <- subscript point "position" ;;
  ptext <- text_of TypeError p ;;
  int_of_string ptext.

(** The body of [for point in points]: the record appended, if any. *)
Definition point_record (area_code dataset_key prod_type unit : string)
    (interval_start : Datetime.datetime) (step : Z) (point : xml)
  : result (option (Frame.Row string)) :=
  position <- position_of point ;;
  timestamp <- point_timestamp interval_start step position ;;
  let record v :=
    Frame.mkRow (Datetime.isoformat timestamp) area_code dataset_key prod_type v unit in
  q <- has "quantity" point ;;
  if q then
    x <- subscript point "quantity" ;;
    xtext <- text_of TypeError x ;;
    v <- float_of_string xtext ;;
    ret (Some (record v))
  else
    a <- has "price.amount" point ;;
    if a then
      x <- subscript point "price.amount" ;;
      xtext <- text_of TypeError x ;;
      v <- float_of_string xtext ;;
      ret (Some (record v))
    else ret None.

Definition somes {A} (l : list (option A)) : list A :=
  flat_map (fun o => match o with Some a => [a] | None => [] end) l.

(** The body of [for period in periods]. *)
Definition period_records (area_code dataset_key prod_type unit : string) (period : xml)
  : result (list (Frame.Row string)) :=
  interval <- subscript period "timeInterval" ;;
  s <- subscript interval "start" ;;
  interval_start <- parse_instant s ;;
  e <- subscript interval "end" ;;
  interval_end <- parse_instant e ;;
  resolution <- get period "resolution" (XText "PT60M") ;;
  let step := step_minutes resolution in
  points <- subscript period "Point" ;;
  records <- map_r (point_record area_code dataset_key prod_type unit interval_start step)
               (as_list points) ;;
  ret (somes records).

(** The body of [for series in timeseries_list]. *)
Definition series_records (area_code dataset_key : string) (series : xml)
  : result (list (Frame.Row string)) :=
  prod_type <- production_type_of dataset_key series ;;
  let unit := if String.eqb dataset_key "day_ahead_prices" then "EUR/MWh" else "MW" in
  periods <- subscript series "Period" ;;
  records <- map_r (period_records area_code dataset_key prod_type unit) (as_list periods) ;;
  ret (List.concat records).

(** The series assembler: the frame of the records, sorted by timestamp and
    without duplicates. A frame built from no record has no column, and
    sorting it by 'timestamp' is a KeyError. *)
Definition assemble (records : list (Frame.Row string)) : result (list (Frame.Row string)) :=
  match records with
  | [] => raise KeyError
  | _ => ret (Frame.sort_dedup Frame.text_leb Frame.text_eqb records)
  end.

(** [d[k] = v] on a dictionary kept in insertion order. *)
Fixpoint dict_set (k v : string) (d : list (string * string)) : list (string * string) :=
  match d with
  | [] => [(k, v)]
  | (k', v') :: d' => if String.eqb k' k then (k, v) :: d' else (k', v') :: dict_set k v d'
  end.

Section Env.
(** The environment of a run: the token read when the module is loaded, the
    remote service, and the reading of the clock. *)
Variable API_TOKEN : string.
Variable requests_get : string -> list (string * string) -> result response.
Variable now : Datetime.datetime.

(** The query builder: the [params] dictionary of one request. *)
Definition build_params (dataset : dataset_config) (area_code : string)
    (start_date end_date : Datetime.datetime) : list (string * string) :=
  let params :=
    [ ("securityToken", API_TOKEN);
      ("documentType", documentType dataset);
      ("periodStart", format_date start_date);
      ("periodEnd", format_date end_date) ] in
  let params :=
    if String.eqb (processType dataset) "" then params
    else dict_set "processType" (processType dataset) params in
  match domain dataset with
  | Domains _ => dict_set "out_Domain" area_code (dict_set "in_Domain" area_code params)
  | Domain domain_field => dict_set domain_field area_code params
  end.

(** [data_dict.get('GL_MarketDocument') or
    data_dict.get('Publication_MarketDocument')]. *)
Definition market_doc_of (data_dict : list (string * xml)) : xml :=
  or_else
    (match dict_get "GL_MarketDocument" data_dict with Some v => v | None => XNone end)
    (match dict_get "Publication_MarketDocument" data_dict with Some v => v | None => XNone end).

(** The test [not market_doc or 'TimeSeries' not in market_doc]. *)
Definition no_timeseries (market_doc : xml) : result bool :=
  if negb (truthy market_doc) then ret true
  else b <- has "TimeSeries" market_doc ;; ret (negb b).

Definition retrieve_entsoe_data (area_code dataset_key : string)
    (start_date end_date : Datetime.datetime) : M (option (list (Frame.Row string))) :=
  dataset <~ lift (of_option KeyError (dict_get dataset_key DATASETS)) ;;
  let params := build_params dataset area_code start_date end_date in
  logging INFO ("Requesting " ++ dataset_key ++ " for area " ++ area_code ++ " from "
                ++ Datetime.str start_date ++ " to " ++ Datetime.str end_date ++ ".") ;;;
  sent params ;;;
  response <~ lift (requests_get BASE_URL params) ;;
  if negb (status_code response =? 200) then
    logging ERROR ("Request failed for " ++ dataset_key ++ ", area " ++ area_code ++ ": "
                   ++ str_int (status_code response) ++ ", " ++ text response) ;;;
    mret None
  else
    data_dict <~ lift (document response) ;;
    let market_doc := market_doc_of data_dict in
    missing <~ lift (no_timeseries market_doc) ;;
    if missing then
      logging WARNING ("No TimeSeries data for " ++ dataset_key ++ ", area " ++ area_code ++ ".") ;;;
      mret None
    else
      timeseries_list <~ lift (subscript market_doc "TimeSeries") ;;
      records <~ lift (map_r (series_records area_code dataset_key) (as_list timeseries_list)) ;;
      df <~ lift (assemble (List.concat records)) ;;
      logging INFO ("Retrieved " ++ str_int (Z.of_nat (List.length df)) ++ " records for "
                    ++ dataset_key ++ ", area " ++ area_code ++ ".") ;;;
      mret (Some df).

(** [df is not None and not df.empty]. *)
Definition has_rows (df : option (list (Frame.Row string))) : bool :=
  match df with
  | Some (_ :: _) => true
  | _ => false
  end.

Definition frame_of (df : option (list (Frame.Row string))) : list (Frame.Row string) :=
  match df with
  | Some t => t
  | None => []
  end.

(** The body of [for zone_code, zone_label in zones]: one unit of work of
    a price dataset. *)
Definition zone_unit (country_name dataset_key : string)
    (start_date end_date : Datetime.datetime) (output_folder : string)
    (zone : string * string) : proc :=
  let '(zone_code, zone_label) := zone in
  logging INFO ("Starting retrieval of " ++ dataset_key ++ " for " ++ country_name
                ++ " (Zone: " ++ zone_label ++ ").") ;;;
  df <~ retrieve_entsoe_data zone_code dataset_key start_date end_date ;;
  if has_rows df then
    let csv_name :=
      path_join output_folder
        (country_name ++ "_" ++ zone_label ++ "_" ++ dataset_key ++ "_"
         ++ Datetime.strftime_Ymd start_date ++ "_"
         ++ Datetime.strftime_Ymd end_date ++ ".csv") in
    write_file csv_name (MonthlyCsv (frame_of df)) ;;;
    logging INFO ("Saved CSV: " ++ csv_name) ;;;
    config <~ lift (of_option KeyError (dict_get dataset_key DATASETS)) ;;
    let metadata :=
      [ ("country", JStr country_name);
        ("bidding_zone", JStr zone_label);
        ("area_code", JStr zone_code);
        ("dataset", JStr dataset_key);
        ("unit", JStr (unit config));
        ("period_start", JStr (Datetime.isoformat start_date));
        ("period_end", JStr (Datetime.isoformat end_date));
        ("retrieval_timestamp", JStr (Datetime.isoformat now)) ] in
    let meta_name := replace ".csv" "_metadata.json" csv_name in
    write_file meta_name (Json metadata) ;;;
    logging INFO ("Saved metadata: " ++ meta_name)
  else
    logging WARNING ("No data available for " ++ country_name ++ " (Zone: "
                     ++ zone_label ++ "), dataset: " ++ dataset_key ++ ".").

(** The [else] branch of the loop over datasets: one unit of work of a
    dataset that is fetched for the country code itself. *)
Definition country_unit (country_name country_code dataset_key : string)
    (start_date end_date : Datetime.datetime) (output_folder : string) : proc :=
  logging INFO ("Starting retrieval of " ++ dataset_key ++ " for " ++ country_name ++ ".") ;;;
  df <~ retrieve_entsoe_data country_code dataset_key start_date end_date ;;
  if has_rows df then
    let csv_name :=
      path_join output_folder
        (country_name ++ "_" ++ dataset_key ++ "_"
         ++ Datetime.strftime_Ymd start_date ++ "_"
         ++ Datetime.strftime_Ymd end_date ++ ".csv") in
    write_file csv_name (MonthlyCsv (frame_of df)) ;;;
    logging INFO ("Saved CSV: " ++ csv_name) ;;;
    config <~ lift (of_option KeyError (dict_get dataset_key DATASETS)) ;;
    let metadata :=
      [ ("country", JStr country_name);
        ("area_code", JStr country_code);
        ("dataset", JStr dataset_key);
        ("unit", JStr (unit config));
        ("period_start", JStr (Datetime.isoformat start_date));
        ("period_end", JStr (Datetime.isoformat end_date));
        ("retrieval_timestamp", JStr (Datetime.isoformat now)) ] in
    let meta_name := replace ".csv" "_metadata.json" csv_name in
    write_file meta_name (Json metadata) ;;;
    logging INFO ("Saved metadata: " ++ meta_name)
  else
    logging WARNING ("No data available for " ++ country_name ++ ", dataset: "
                     ++ dataset_key ++ ".").

(** The area codes a price dataset is fetched for. *)
Definition zones_of (country_name country_code : string) : list (string * string) :=
  match dict_get country_name BIDDING_ZONES with
  | Some zones => zones
  | None => [(country_code, country_name)]
  end.

Definition retrieve_entsoe_datasets (countries : list (string * string))
    (datasets : list string) (start_date end_date : Datetime.datetime)
    (output_folder : string) : proc :=
  for_each countries (fun '(country_name, country_code) =>
    for_each datasets (fun dataset_key =>
      if String.eqb dataset_key "day_ahead_prices" then
        for_each (zones_of country_name country_code)
          (zone_unit country_name dataset_key start_date end_date output_folder)
      else
        country_unit country_name country_code dataset_key start_date end_date
          output_folder)).

Definition retrieve_monthly_entsoe_datasets (countries : list (string * string))
    (datasets : list string) (year : Z) (output_folder : string) : proc :=
  for_each (List.map Z.of_nat (seq 1 12)) (fun month =>
    start_date <~ lift (of_option ValueError (Datetime.make year month 1 0 0 0 (Some 0))) ;;
    end_date <~ lift (of_option ValueError
                        (if month =? 12 then Datetime.make (year + 1) 1 1 0 0 0 (Some 0)
                         else Datetime.make year (month + 1) 1 0 0 0 (Some 0))) ;;
    logging INFO ("=== Retrieving data for " ++ Datetime.strftime_BY start_date ++ " ===") ;;;
    retrieve_entsoe_datasets countries datasets start_date end_date output_folder).




(** The request a unit sends. *)
Definition request_of (start_date end_date : Datetime.datetime) (u : string * string)
  : list (string * string) :=
  match dict_get (snd u) DATASETS with
  | Some dataset => build_params dataset (fst u) start_date end_date
  | None => []
  end.

(** What the fetch of a unit returns or raises. *)
Definition fetched (start_date end_date : Datetime.datetime) (u : string * string)
  : result (option (list (Frame.Row string))) :=
  fst (retrieve_entsoe_data (fst u) (snd u) start_date end_date Run.initial).
End Env.


(** A response that is no success of the transport. *)
Definition transport_failure (r : response) : bool := negb (status_code r =? 200).

(** A well-formed body with no recognised root element, or with a root element
    that has no TimeSeries child. *)
Definition without_timeseries (r : response) : bool :=
  match document r with
  | inr data_dict =>
      match market_doc_of data_dict with
      | XNone => true
      | XElem children =>
          match dict_get "TimeSeries" children with
          | None => true
          | Some _ => false
          end
      | _ => false
      end
  | inl _ => false
  end.

(** The trace of a unit that is skipped: it returns, writes no file, and
    logs its two start lines, one line of the fetch (an error when the
    transport failed, a warning when the series are missing) and the warning
    that no data is available. *)
Definition skipped (r : response) (s : state) (run : result Datatypes.unit * state) : Prop :=
  fst run = inr tt /\
  files (snd run) = files s /\
  exists m1 m2 m3 m4,
    log (snd run) =
      (log s ++
       [(INFO, m1); (INFO, m2);
        (if transport_failure r then ERROR else WARNING, m3);
        (WARNING, m4)])%list.

(** The fields of the metadata file of a monthly artifact. *)
Definition zone_fields : list string :=
  ["country"; "bidding_zone"; "area_code"; "dataset"; "unit"; "period_start";
   "period_end"; "retrieval_timestamp"].
Definition country_fields : list string :=
  ["country"; "area_code"; "dataset"; "unit"; "period_start"; "period_end";
   "retrieval_timestamp"].

(** What a file of the monthly store holds: a table that meets the artifact
    invariant, or metadata with the fields of its kind of dataset. *)
Definition monthly_ok (c : content) : Prop :=
  match c with
  | MonthlyCsv t => Frame.canonical Frame.text_leb Frame.text_eqb t /\ t <> []
  | Json fields =>
      (List.map fst fields = zone_fields /\
       dict_get "dataset" fields = Some (JStr "day_ahead_prices")) \/
      (List.map fst fields = country_fields /\
       dict_get "dataset" fields <> Some (JStr "day_ahead_prices"))
  | YearlyCsv _ => False
  end.

End Retrieval.

(** ** scripts/entsoe_preprocessing.py *)

Module Preprocessing.
Import Py Run.

(** A key of [file_groups]: (country, bidding_zone, dataset, year). *)
Definition group_key : Type := (string * string * string * string)%type.

Definition group_key_eqb (a b : group_key) : bool :=
  let '(c1, z1, d1, y1) := a in
  let '(c2, z2, d2, y2) := b in
  String.eqb c1 c2 && String.eqb z1 z2 && String.eqb d1 d2 && String.eqb y1 y2.

(** The key the loop over [monthly_files] reads off a file name; [None] when
    the name has fewer than five parts and the file is passed over. *)
Definition file_key (filename : string) : option group_key :=
  let parts := split "_" filename in
  if (5 <=? List.length parts)%nat then
    match getitem parts 0, getitem parts 1, getitem parts (-2) with
    | Some country, Some bidding_zone, Some start_date =>
        let dataset := join "_" (slice parts 2 (-2)) in
        let year := take 4 start_date in
        Some (country, bidding_zone, dataset, year)
    | _, _, _ => None
    end
  else None.

(** [file_groups.setdefault(key, []).append(filepath)]. *)
Fixpoint setdefault_append (key : group_key) (filepath : string)
    (file_groups : list (group_key * list string)) : list (group_key * list string) :=
  match file_groups with
  | [] => [(key, [filepath])]
  | (k, fs) :: rest =>
      if group_key_eqb k key then (k, (fs ++ [filepath])%list) :: rest
      else (k, fs) :: setdefault_append key filepath rest
  end.

(** The first loop: the groups, in the order their keys were first met. *)
Definition group_files (monthly_files : list string) : list (group_key * list string) :=
  fold_left
    (fun file_groups filepath =>
       match file_key (basename filepath) with
       | Some key => setdefault_append key filepath file_groups
       | None => file_groups
       end)
    monthly_files [].

(** [pd.to_datetime] on the timestamp column: every text is parsed; texts
    that do not agree on their offset from UTC are refused. *)
Definition parse_row (r : Frame.Row string) : result (Frame.Row Datetime.datetime) :=
  t <- Datetime.fromisoformat (Frame.timestamp r) ;;
  ret (Frame.mkRow t (Frame.area_code r) (Frame.dataset r) (Frame.production_type r)
         (Frame.value r) (Frame.unit r)).

Definition same_offset (a b : Datetime.datetime) : bool :=
  match Datetime.utcoffset a, Datetime.utcoffset b with
  | Some x, Some y => x =? y
  | None, None => true
  | _, _ => false
  end.

Definition to_datetime (t : list (Frame.Row string)) : result (list (Frame.Row Datetime.datetime)) :=
  rows <- map_r parse_row t ;;
  match rows with
  | [] => ret []
  | r :: rest =>
      if forallb (fun x => same_offset (Frame.timestamp r) (Frame.timestamp x)) rest
      then ret rows
      else raise ValueError
  end.

Definition exn_name (e : exn) : string :=
  match e with
  | KeyError => "KeyError"
  | TypeError => "TypeError"
  | ValueError => "ValueError"
  | AttributeError => "AttributeError"
  | IndexError => "IndexError"
  | OverflowError => "OverflowError"
  | ExpatError => "ExpatError"
  | RequestException => "RequestException"
  | OSError => "OSError"
  end.

(** The metadata of a yearly artifact, read off the merged table; IndexError
    when the table has no first row. *)
Definition yearly_metadata (country bidding_zone dataset : string)
    (combined_df : list (Frame.Row Datetime.datetime)) (files : list string)
    (now : Datetime.datetime) : result (list (string * json)) :=
  match combined_df with
  | [] => raise IndexError
  | first :: others =>
      let column := List.map Frame.timestamp others in
      ret [ ("country", JStr country);
            ("bidding_zone", JStr bidding_zone);
            ("dataset", JStr dataset);
            ("unit", JStr (Frame.unit first));
            ("period_start",
             JStr (Datetime.isoformat
                     (Frame.column_min Frame.instant_leb (Frame.timestamp first) column)));
            ("period_end",
             JStr (Datetime.isoformat
                     (Frame.column_max Frame.instant_leb (Frame.timestamp first) column)));
            ("retrieval_timestamp", JStr (Datetime.isoformat now));
            ("source_files", JList (List.map basename files)) ]
  end.

Section Env.
(** The environment of a merge: the monthly files a folder holds (the result
    of the glob for its csv files), what reading one yields, and the clock. *)
Variable glob_csv : string -> list string.
Variable read_csv : string -> result (list (Frame.Row string)).
Variable now : Datetime.datetime.

(** The merged table of a group: concatenation, parsing of the timestamps,
    sorting, dropping of duplicates. *)
Definition merged_table (files : list string) : result (list (Frame.Row Datetime.datetime)) :=
  tables <- map_r read_csv files ;;
  combined_df <- to_datetime (List.concat tables) ;;
  ret (Frame.sort_dedup Frame.instant_leb Frame.instant_eqb combined_df).

(** The body of the second loop, for one group. *)
Definition merge_group (yearly_folder : string) (key : group_key) (files : list string) : proc :=
  let '(country, bidding_zone, dataset, year) := key in
  try_except
    (logging INFO ("Merging files for " ++ country ++ " " ++ bidding_zone ++ " "
                   ++ dataset ++ " " ++ year) ;;;
     combined_df <~ lift (merged_table files) ;;
     let yearly_filename :=
       country ++ "_" ++ bidding_zone ++ "_" ++ dataset ++ "_" ++ year ++ ".csv" in
     write_file (path_join yearly_folder yearly_filename) (YearlyCsv combined_df) ;;;
     metadata <~ lift (yearly_metadata country bidding_zone dataset combined_df files now) ;;
     let yearly_metadata_filename := replace ".csv" "_metadata.json" yearly_filename in
     write_file (path_join yearly_folder yearly_metadata_filename) (Json metadata) ;;;
     logging INFO ("Saved yearly data: " ++ yearly_filename) ;;;
     logging INFO ("Saved yearly metadata: " ++ yearly_metadata_filename))
    (fun e =>
       logging ERROR ("Error processing " ++ country ++ " " ++ bidding_zone ++ " "
                      ++ dataset ++ " " ++ year ++ ": " ++ exn_name e)).

Definition merge_monthly_to_yearly (input_folder output_folder : string) : proc :=
  let monthly_files := glob_csv input_folder in
  let file_groups := group_files monthly_files in
  for_each file_groups (fun '(key, files) => merge_group output_folder key files).
End Env.


End Preprocessing.


(** ** main.py: the two ENTSO-E blocks of [main] *)

Module Main.
Import Py Run.

Definition EU_COUNTRIES : list (string * string) :=
  [ ("Austria", "10YAT-APG------L");
    ("Belgium", "10YBE----------2");
    ("Bulgaria", "10YCA-BULGARIA-R");
    ("Croatia", "10YHR-HEP------M");
    ("Cyprus", "10YCY-1001A0003J");
    ("Czech Republic", "10YCZ-CEPS-----N");
    ("Denmark", "10Y1001A1001A65H");
    ("Estonia", "10Y1001A1001A39I");
    ("Finland", "10YFI-1--------U");
    ("France", "10YFR-RTE------C");
    ("Germany", "10Y1001A1001A83F");
    ("Greece", "10YGR-HTSO-----Y");
    ("Hungary", "10YHU-MAVIR----U");
    ("Ireland", "10YIE-1001A00010");
    ("Italy", "10YIT-GRTN-----B");
    ("Latvia", "10YLV-1001A00074");
    ("Lithuania", "10YLT-1001A0008Q");
    ("Luxembourg", "10YLU-CEGEDEL-NQ");
    ("Malta", "10Y1001A1001A93C");
    ("Netherlands", "10YNL----------L");
    ("Poland", "10YPL-AREA-----S");
    ("Portugal", "10YPT-REN------W");
    ("Romania", "10YRO-TEL------P");
    ("Slovakia", "10YSK-SEPS-----K");
    ("Slovenia", "10YSI-ELES-----O");
    ("Spain", "10YES-REE------0");
    ("Sweden", "10YSE-1--------K") ].

Definition selected_datasets : list string :=
  ["actual_load"; "actual_generation"; "day_ahead_prices"; "installed_capacity"].

(** [range(lo, hi)]. *)
Definition range (lo hi : Z) : list Z :=
  List.map (fun i => lo + Z.of_nat i) (seq 0 (Z.to_nat (hi - lo))).

(** [int(os.getenv(name, default))]: the text of the variable read as an
    integer when it is set, the default when it is not. *)
Definition int_setting (value : option string) (default : Z) : result Z :=
  match value with
  | Some v => int_of_string v
  | None => ret default
  end.

(** [os.getenv(name, "1") == "1"]. *)
Definition flag (value : option string) : bool :=
  match value with
  | Some v => String.eqb v "1"
  | None => true
  end.

Section Env.
(** The environment of a run of [main]: the variables of the process, and
    what the two scripts work with. *)
Variable getenv : string -> option string.
Variable API_TOKEN : string.
Variable requests_get : string -> list (string * string) -> result Retrieval.response.
Variable now : Datetime.datetime.
Variable glob_csv : string -> list string.
Variable read_csv : string -> result (list (Frame.Row string)).

(** The block under [if RUN_ENTSOE]. *)
Definition entsoe_retrieval : proc :=
  if flag (getenv "RUN_ENTSOE") then
    try_except
      (let entsoe_output_dir := "output/entsoe" in
       start_year_entsoe <~ lift (int_setting (getenv "ENTSOE_START_YEAR") 2021) ;;
       end_year_entsoe <~ lift (int_setting (getenv "ENTSOE_END_YEAR") 2024) ;;
       for_each (range start_year_entsoe (end_year_entsoe + 1)) (fun year =>
         logging INFO ("--- ENTSO-E retrieval for year: " ++ str_int year ++ " ---") ;;;
         Retrieval.retrieve_monthly_entsoe_datasets API_TOKEN requests_get now
           EU_COUNTRIES selected_datasets year entsoe_output_dir) ;;;
       logging INFO "ENTSO-E data retrieved successfully.")
      (fun e => logging ERROR ("ENTSO-E retrieval failed: " ++ Preprocessing.exn_name e))
  else mret tt.

(** The block under [if RUN_ENTSOE_PREPROCESSING]. *)
Definition entsoe_preprocessing : proc :=
  if flag (getenv "RUN_ENTSOE_PREPROCESSING") then
    try_except
      (logging INFO "=== Starting ENTSO-E Data Preprocessing ===" ;;;
       Preprocessing.merge_monthly_to_yearly glob_csv read_csv now
         "output/entsoe" "output/entsoe/yearly" ;;;
       logging INFO "ENTSO-E data preprocessing successfully completed.")
      (fun e => logging ERROR ("ENTSO-E preprocessing failed: " ++ Preprocessing.exn_name e))
  else mret tt.

(** The two blocks in the order [main] runs them. The blocks of the other
    data sources, which run in between, are not part of this development. *)
Definition main_entsoe : proc :=
  entsoe_retrieval ;;; entsoe_preprocessing.
End Env.

End Main.

(** ** Sample data *)

Module Examples.
Import Py Run Retrieval.

Definition point (position quantity : string) : xml :=
  XElem [("position", XText position); ("quantity", XText quantity)].

(** A period of four quarter hours that starts on 2024-01-01T00:00Z. *)
Definition quarter_hours : xml :=
  XElem [ ("timeInterval",
           XElem [("start", XText "2024-01-01T00:00Z"); ("end", XText "2024-01-01T01:00Z")]);
          ("resolution", XText "PT15M");
          ("Point", XMany [point "1" "10"; point "2" "11.5"; point "3" "12"; point "4" "13"]) ].

(** A period with no resolution: two hourly points. *)
Definition hours : xml :=
  XElem [ ("timeInterval",
           XElem [("start", XText "2024-01-01T00:00Z"); ("end", XText "2024-01-01T02:00Z")]);
          ("Point", XMany [point "1" "7"; point "2" "8"]) ].

Definition solar_document : list (string * xml) :=
  [ ("GL_MarketDocument",
     XElem [ ("mRID", XText "1");
             ("TimeSeries",
              XElem [ ("MktPSRType", XElem [("psrType", XText "B16")]);
                      ("Period", quarter_hours) ]) ]) ].

(** Two series that overlap on 00:00: the first value seen there is 10. *)
Definition overlapping_document : list (string * xml) :=
  [ ("GL_MarketDocument",
     XElem [ ("TimeSeries",
              XMany [ XElem [ ("MktPSRType", XElem [("psrType", XText "B16")]);
                              ("Period", quarter_hours) ];
                      XElem [ ("MktPSRType", XElem [("psrType", XText "B16")]);
                              ("Period", hours) ] ]) ]) ].

Definition good : response :=
  {| status_code := 200; text := "<GL_MarketDocument>...</GL_MarketDocument>";
     document := inr solar_document |}.
Definition malformed : response :=
  {| status_code := 200; text := "<GL_MarketDocument>"; document := inl ExpatError |}.
Definition refused : response :=
  {| status_code := 503; text := "Service Unavailable"; document := inl ExpatError |}.
Definition empty : response :=
  {| status_code := 200; text := "<GL_MarketDocument><mRID>1</mRID></GL_MarketDocument>";
     document := inr [("GL_MarketDocument", XElem [("mRID", XText "1")])] |}.
Definition rootless : response :=
  {| status_code := 200; text := "<Acknowledgement_MarketDocument/>";
     document := inr [("Acknowledgement_MarketDocument", XNone)] |}.

(** The area a request asks for. *)
Definition area_of (params : list (string * string)) : string :=
  match dict_get "in_Domain" params, dict_get "outBiddingZone_Domain" params with
  | Some a, _ => a
  | None, Some a => a
  | None, None => ""
  end.

(** A service that answers by area: area "a" gets a body that is not
    well-formed, "r" is refused, "e" gets a document without series, "n" one
    without a known root, every other area the solar document. *)
Definition service (url : string) (params : list (string * string)) : result response :=
  let area := area_of params in
  if String.eqb area "a" then inr malformed
  else if String.eqb area "r" then inr refused
  else if String.eqb area "e" then inr empty
  else if String.eqb area "n" then inr rootless
  else inr good.

Definition january : Datetime.datetime := Datetime.utc 2024 1 1 0 0.
Definition february : Datetime.datetime := Datetime.utc 2024 2 1 0 0.
Definition clock : Datetime.datetime := Datetime.utc 2024 3 5 12 0.

(** Two monthly tables that share the row of 2024-02-01T00:00. *)
Definition load_row (timestamp quantity : string) : Frame.Row string :=
  Frame.mkRow timestamp "10Y1001A1001A83F" "actual_load" "Actual_Load"
    {| mantissa := match nat_literal quantity with Some q => q | None => 0 end; places := 0 |}
    "MW".

Definition january_table : list (Frame.Row string) :=
  [ load_row "2024-01-31T22:00:00+00:00" "50";
    load_row "2024-01-31T23:00:00+00:00" "51";
    load_row "2024-02-01T00:00:00+00:00" "52" ].
Definition february_table : list (Frame.Row string) :=
  [ load_row "2024-02-01T00:00:00+00:00" "52";
    load_row "2024-02-01T01:00:00+00:00" "53" ].

Definition january_file : string := "output/entsoe/DE_actual_load_20240101_20240201.csv".
Definition february_file : string := "output/entsoe/DE_actual_load_20240201_20240301.csv".

Definition folder (f : string) : list string :=
  if String.eqb f "output/entsoe" then [january_file; february_file] else [].

Definition reader (path : string) : result (list (Frame.Row string)) :=
  if String.eqb path january_file then inr january_table
  else if String.eqb path february_file then inr february_table
  else inl OSError.

(** A response whose only series has one point, without a value. *)
Definition valueless_series : Retrieval.xml :=
  Retrieval.XElem
    [("Period",
      Retrieval.XElem
        [("timeInterval",
          Retrieval.XElem
            [("start", Retrieval.XText "2024-01-01T00:00Z");
             ("end", Retrieval.XText "2024-01-01T01:00Z")]);
         ("resolution", Retrieval.XText "PT60M");
         ("Point", Retrieval.XElem [("position", Retrieval.XText "1")])])].

Definition valueless_document : list (string * Retrieval.xml) :=
  [("GL_MarketDocument", Retrieval.XElem [("TimeSeries", valueless_series)])].

Definition valueless : Retrieval.response :=
  {| Retrieval.status_code := 200; Retrieval.text := "";
     Retrieval.document := inr valueless_document |}.

End Examples.

(** * Properties *)

(** ** The order of text *)

Module TextOrder.

Lemma ascii_compare_refl (c : ascii) : Ascii.compare c c = Eq.
Proof. unfold Ascii.compare. apply N.compare_refl. Qed.

Lemma ascii_compare_eq (a b : ascii) : Ascii.compare a b = Eq -> a = b.
Proof.
  unfold Ascii.compare. intros H. apply N.compare_eq in H.
  rewrite <- (ascii_N_embedding a), <- (ascii_N_embedding b). now rewrite H.
Qed.

Lemma compare_refl (s : string) : String.compare s s = Eq.
Proof. induction s as [|c s IH]; simpl; [reflexivity|]. now rewrite ascii_compare_refl. Qed.

Lemma leb_refl (s : string) : String.leb s s = true.
Proof. unfold String.leb. now rewrite compare_refl. Qed.

(** [a] is not above [b]. *)
Definition le (a b : string) : Prop := String.compare a b <> Gt.

Lemma le_trans (a b c : string) : le a b -> le b c -> le a c.
Proof.
  unfold le. revert b c.
  induction a as [|x a IH]; intros [|y b] [|z c]; simpl; try congruence.
  unfold Ascii.compare.
  destruct (N.compare_spec (N_of_ascii x) (N_of_ascii y)) as [Exy|Lxy|Gxy];
    destruct (N.compare_spec (N_of_ascii y) (N_of_ascii z)) as [Eyz|Lyz|Gyz];
    try congruence; intros Hab Hbc.
  - rewrite Exy, Eyz, N.compare_refl. eauto.
  - rewrite Exy. now rewrite (proj2 (N.compare_lt_iff _ _) Lyz).
  - rewrite <- Eyz. now rewrite (proj2 (N.compare_lt_iff _ _) Lxy).
  - now rewrite (proj2 (N.compare_lt_iff _ _) (N.lt_trans _ _ _ Lxy Lyz)).
Qed.

Lemma leb_le (a b : string) : String.leb a b = true <-> le a b.
Proof. unfold String.leb, le. destruct (String.compare a b); split; congruence. Qed.

Lemma leb_trans (a b c : string) :
  String.leb a b = true -> String.leb b c = true -> String.leb a c = true.
Proof. rewrite !leb_le. apply le_trans. Qed.

End TextOrder.

(** ** Sorting and dropping duplicates *)

Module FrameFacts.
Import Frame.

Lemma text_order : column_order text_leb text_eqb.
Proof.
  unfold text_leb, text_eqb. split.
  - apply String.leb_total.
  - apply TextOrder.leb_trans.
  - apply String.eqb_refl.
  - intros a b H. now rewrite String.eqb_sym.
  - intros a b c H1 H2. apply String.eqb_eq in H1, H2. subst. apply String.eqb_refl.
  - intros a b H. apply String.eqb_eq in H. subst. apply TextOrder.leb_refl.
Qed.

Lemma instant_order : column_order instant_leb instant_eqb.
Proof.
  unfold instant_leb, instant_eqb. split; intros; lia.
Qed.

Section Facts.
Context {T : Type} (leb eqb : T -> T -> bool).
Hypothesis order : column_order leb eqb.

Local Notation "'row'" := (Row T).
Local Notation "'matches' k" := (fun r : Row T => key_eqb eqb k (key r)) (at level 10, k at level 9).

Lemma key_eqb_refl (k : T * string) : key_eqb eqb k k = true.
Proof.
  unfold key_eqb. now rewrite (eqb_refl _ _ order), String.eqb_refl.
Qed.

Lemma key_eqb_sym (a b : T * string) : key_eqb eqb a b = key_eqb eqb b a.
Proof.
  unfold key_eqb. rewrite (String.eqb_sym (snd a)). f_equal.
  destruct (eqb (fst a) (fst b)) eqn:E1, (eqb (fst b) (fst a)) eqn:E2; trivial.
  - apply (eqb_sym _ _ order) in E1. congruence.
  - apply (eqb_sym _ _ order) in E2. congruence.
Qed.

Lemma key_eqb_trans (a b c : T * string) :
  key_eqb eqb a b = true -> key_eqb eqb b c = true -> key_eqb eqb a c = true.
Proof.
  unfold key_eqb. rewrite !andb_true_iff, !String.eqb_eq.
  intros [H1 H2] [H3 H4]. split; [|congruence].
  eapply (eqb_trans _ _ order); eassumption.
Qed.

Lemma matches_leb (k : T * string) (a b : row) :
  key_eqb eqb k (key a) = true -> key_eqb eqb k (key b) = true ->
  leb (timestamp a) (timestamp b) = true.
Proof.
  intros Ha Hb. rewrite key_eqb_sym in Ha.
  pose proof (key_eqb_trans _ _ _ Ha Hb) as H.
  unfold key_eqb in H. apply andb_true_iff in H.
  apply (eqb_leb _ _ order). apply H.
Qed.

(** *** sort_values *)

Lemma insert_perm (r : row) (t : list row) : Permutation (insert leb r t) (r :: t).
Proof.
  induction t as [|x t IH]; simpl; [reflexivity|].
  destruct (leb (timestamp r) (timestamp x)); [reflexivity|].
  rewrite IH. apply perm_swap.
Qed.

Lemma sort_values_perm (t : list row) : Permutation (sort_values leb t) t.
Proof.
  induction t as [|x t IH]; simpl; [reflexivity|].
  rewrite insert_perm. now constructor.
Qed.

Lemma insert_Forall (P : row -> Prop) (r : row) (t : list row) :
  P r -> Forall P t -> Forall P (insert leb r t).
Proof.
  intros Hr Ht. induction Ht as [|x t Hx Ht IH]; simpl.
  - repeat constructor; assumption.
  - destruct (leb (timestamp r) (timestamp x)); repeat constructor; assumption.
Qed.

Lemma insert_ascending (r : row) (t : list row) :
  ascending leb t -> ascending leb (insert leb r t).
Proof.
  unfold ascending. intros Ht.
  induction Ht as [|x t Ht IH Hx]; simpl.
  - repeat constructor.
  - destruct (leb (timestamp r) (timestamp x)) eqn:E.
    + constructor; [constructor; assumption|].
      constructor; [assumption|].
      eapply Forall_impl; [|exact Hx]. simpl. intros y Hy.
      eapply (leb_trans _ _ order); eassumption.
    + constructor; [assumption|].
      apply insert_Forall; [|assumption].
      destruct (leb_total _ _ order (timestamp r) (timestamp x)); congruence.
Qed.

Lemma sort_values_ascending (t : list row) : ascending leb (sort_values leb t).
Proof.
  induction t as [|x t IH]; simpl; [constructor|]. now apply insert_ascending.
Qed.


(** The sort is stable: among rows that the order does not tell apart, the
    first of the input is the first of the output. *)
Lemma insert_find (P : row -> bool) (r : row) (t : list row) :
  (forall a b, P a = true -> P b = true -> leb (timestamp a) (timestamp b) = true) ->
  find P (insert leb r t) = if P r then Some r else find P t.
Proof.
  intros HP. induction t as [|x t IH]; simpl.
  - destruct (P r); reflexivity.
  - destruct (leb (timestamp r) (timestamp x)) eqn:E; simpl.
    + destruct (P r); reflexivity.
    + rewrite IH. destruct (P x) eqn:Ex; [|reflexivity].
      destruct (P r) eqn:Er; [|reflexivity].
      rewrite (HP r x Er Ex) in E. discriminate.
Qed.

Lemma sort_values_find (P : row -> bool) (t : list row) :
  (forall a b, P a = true -> P b = true -> leb (timestamp a) (timestamp b) = true) ->
  find P (sort_values leb t) = find P t.
Proof.
  intros HP. induction t as [|x t IH]; simpl; [reflexivity|].
  rewrite insert_find by assumption. now rewrite IH.
Qed.

(** *** drop_duplicates *)

Lemma drop_seen_Forall (P : row -> Prop) (seen : list (T * string)) (t : list row) :
  Forall P t -> Forall P (drop_seen eqb seen t).
Proof.
  intros Ht. revert seen. induction Ht as [|x t Hx Ht IH]; intros seen; simpl.
  - constructor.
  - destruct (existsb _ seen); [apply IH|]. constructor; [assumption|apply IH].
Qed.

Lemma drop_seen_incl (seen : list (T * string)) (t : list row) :
  incl (drop_seen eqb seen t) t.
Proof.
  revert seen. induction t as [|x t IH]; intros seen; simpl.
  - apply incl_refl.
  - destruct (existsb _ seen).
    + apply incl_tl, IH.
    + apply incl_cons; [now left|]. apply incl_tl, IH.
Qed.

Lemma drop_seen_ascending (seen : list (T * string)) (t : list row) :
  ascending leb t -> ascending leb (drop_seen eqb seen t).
Proof.
  unfold ascending. intros Ht. revert seen.
  induction Ht as [|x t Ht IH Hx]; intros seen; simpl.
  - constructor.
  - destruct (existsb _ seen); [apply IH|].
    constructor; [apply IH|]. now apply drop_seen_Forall.
Qed.

(** No row that is kept has a key that was seen before. *)
Lemma drop_seen_fresh (seen : list (T * string)) (t : list row) :
  Forall (fun r => existsb (key_eqb eqb (key r)) seen = false) (drop_seen eqb seen t).
Proof.
  revert seen. induction t as [|x t IH]; intros seen; simpl; [constructor|].
  destruct (existsb (key_eqb eqb (key x)) seen) eqn:E; [apply IH|].
  constructor; [assumption|].
  eapply Forall_impl; [|apply (IH (key x :: seen))].
  simpl. intros r Hr. apply orb_false_iff in Hr. apply Hr.
Qed.

Lemma drop_seen_distinct (seen : list (T * string)) (t : list row) :
  distinct_keys eqb (drop_seen eqb seen t).
Proof.
  unfold distinct_keys. revert seen.
  induction t as [|x t IH]; intros seen; simpl; [constructor|].
  destruct (existsb (key_eqb eqb (key x)) seen) eqn:E; [apply IH|].
  constructor; [|apply IH].
  eapply Forall_impl; [|apply (drop_seen_fresh (key x :: seen))].
  simpl. intros r Hr. apply orb_false_iff in Hr. rewrite key_eqb_sym. apply Hr.
Qed.

(** A table whose keys are distinct and new is left as it is. *)
Lemma drop_seen_fixed (seen : list (T * string)) (t : list row) :
  distinct_keys eqb t ->
  Forall (fun r => existsb (key_eqb eqb (key r)) seen = false) t ->
  drop_seen eqb seen t = t.
Proof.
  unfold distinct_keys. intros Ht. revert seen.
  induction Ht as [|x t Hx Ht IH]; intros seen Hs; simpl; [reflexivity|].
  inversion Hs as [|? ? H1 H2]; subst. rewrite H1. f_equal.
  apply IH. rewrite Forall_forall in *. intros r Hr. simpl.
  rewrite key_eqb_sym, (Hx r Hr). simpl. now apply H2.
Qed.

(** The row kept for a key is the first row of the table with that key. *)
Lemma drop_seen_find (k : T * string) (seen : list (T * string)) (t : list row) :
  existsb (key_eqb eqb k) seen = false ->
  find (matches k) (drop_seen eqb seen t) = find (matches k) t.
Proof.
  revert seen. induction t as [|x t IH]; intros seen Hk; simpl; [reflexivity|].
  destruct (existsb (key_eqb eqb (key x)) seen) eqn:E.
  - destruct (key_eqb eqb k (key x)) eqn:Ex; [|now apply IH].
    apply existsb_exists in E. destruct E as [s [Hs E]].
    assert (existsb (key_eqb eqb k) seen = true); [|congruence].
    apply existsb_exists. exists s. split; [assumption|].
    eapply key_eqb_trans; eassumption.
  - simpl. destruct (key_eqb eqb k (key x)) eqn:Ex; [reflexivity|].
    apply IH. simpl. now rewrite Ex.
Qed.

(** A table with distinct keys has at most one row for a key. *)
Lemma distinct_count (k : T * string) (t : list row) :
  distinct_keys eqb t -> (List.length (filter (matches k) t) <= 1)%nat.
Proof.
  unfold distinct_keys. intros Ht.
  induction Ht as [|x t Hx Ht IH]; simpl; [lia|].
  destruct (key_eqb eqb k (key x)) eqn:Ex; [|assumption].
  assert (filter (matches k) t = []) as ->; [|simpl; lia].
  clear IH Ht. induction Hx as [|r t Hr Hx IH]; simpl; [reflexivity|].
  destruct (key_eqb eqb k (key r)) eqn:Er; [|assumption].
  rewrite key_eqb_sym in Ex. rewrite (key_eqb_trans _ _ _ Ex Er) in Hr. discriminate.
Qed.

(** *** The assembler's rule *)

Lemma sort_dedup_canonical (t : list row) : canonical leb eqb (sort_dedup leb eqb t).
Proof.
  split.
  - apply drop_seen_distinct.
  - apply drop_seen_ascending, sort_values_ascending.
Qed.

Lemma sort_dedup_incl (t : list row) : incl (sort_dedup leb eqb t) t.
Proof.
  intros r Hr. apply drop_seen_incl in Hr.
  eapply Permutation_in; [apply sort_values_perm|exact Hr].
Qed.

Lemma sort_dedup_find (k : T * string) (t : list row) :
  find (matches k) (sort_dedup leb eqb t) = find (matches k) t.
Proof.
  unfold sort_dedup, drop_duplicates.
  rewrite drop_seen_find by reflexivity.
  apply sort_values_find. intros a b. apply matches_leb.
Qed.


Lemma sort_dedup_once (k : T * string) (t : list row) :
  (exists r, In r t /\ key_eqb eqb k (key r) = true) ->
  List.length (filter (matches k) (sort_dedup leb eqb t)) = 1%nat.
Proof.
  intros [r [Hr Hk]].
  pose proof (distinct_count k _ (proj1 (sort_dedup_canonical t))) as Hle.
  destruct (find (matches k) (sort_dedup leb eqb t)) as [x|] eqn:E.
  - apply find_some in E. destruct E as [Hin Hx].
    assert (In x (filter (matches k) (sort_dedup leb eqb t))) as Hf
      by (apply filter_In; split; assumption).
    destruct (filter (matches k) (sort_dedup leb eqb t)); simpl in *; [contradiction|lia].
  - rewrite sort_dedup_find in E.
    pose proof (find_none _ _ E r Hr) as H. simpl in H. congruence.
Qed.




(** *** The extrema of a column *)

Lemma column_min_spec (x : T) (l : list T) :
  In (column_min leb x l) (x :: l) /\
  forall y, In y (x :: l) -> leb (column_min leb x l) y = true.
Proof.
  unfold column_min. revert x. induction l as [|z l IH]; intros x; simpl.
  - split; [now left|]. intros y [<-|[]].
    destruct (leb_total _ _ order x x); assumption.
  - destruct (IH (if leb x z then x else z)) as [H1 H2]. split.
    + destruct H1 as [H1|H1]; [|now right; right].
      rewrite <- H1. destruct (leb x z); [now left|now right; left].
    + intros y Hy.
      assert (leb (if leb x z then x else z) x = true /\
              leb (if leb x z then x else z) z = true) as [Hx Hz].
      { destruct (leb x z) eqn:E.
        - split; [|assumption]. destruct (leb_total _ _ order x x); assumption.
        - split; [|destruct (leb_total _ _ order z z); assumption].
          destruct (leb_total _ _ order x z); congruence. }
      destruct Hy as [<-|[<-|Hy]].
      * eapply (leb_trans _ _ order); [|exact Hx]. apply H2. now left.
      * eapply (leb_trans _ _ order); [|exact Hz]. apply H2. now left.
      * apply H2. now right.
Qed.

Lemma column_max_spec (x : T) (l : list T) :
  In (column_max leb x l) (x :: l) /\
  forall y, In y (x :: l) -> leb y (column_max leb x l) = true.
Proof.
  unfold column_max. revert x. induction l as [|z l IH]; intros x; simpl.
  - split; [now left|]. intros y [<-|[]].
    destruct (leb_total _ _ order x x); assumption.
  - destruct (IH (if leb z x then x else z)) as [H1 H2]. split.
    + destruct H1 as [H1|H1]; [|now right; right].
      rewrite <- H1. destruct (leb z x); [now left|now right; left].
    + intros y Hy.
      assert (leb x (if leb z x then x else z) = true /\
              leb z (if leb z x then x else z) = true) as [Hx Hz].
      { destruct (leb z x) eqn:E.
        - split; [|assumption]. destruct (leb_total _ _ order x x); assumption.
        - split; [|destruct (leb_total _ _ order z z); assumption].
          destruct (leb_total _ _ order x z); congruence. }
      destruct Hy as [<-|[<-|Hy]].
      * eapply (leb_trans _ _ order); [exact Hx|]. apply H2. now left.
      * eapply (leb_trans _ _ order); [exact Hz|]. apply H2. now left.
      * apply H2. now right.
Qed.

Lemma sort_dedup_nonempty (t : list row) : t <> [] -> sort_dedup leb eqb t <> [].
Proof.
  destruct t as [|r t]; [congruence|]. intros _ E.
  pose proof (sort_dedup_find (key r) (r :: t)) as F.
  rewrite E in F. simpl in F. rewrite key_eqb_refl in F. discriminate.
Qed.

Lemma distinct_keys_perm (t t' : list row) :
  Permutation t t' -> distinct_keys eqb t -> distinct_keys eqb t'.
Proof.
  unfold distinct_keys. intros P. induction P as [|x l l' P IH|x y l|l l' l'' P1 IH1 P2 IH2].
  - trivial.
  - intros H. inversion H as [|? ? Hx Hl]; subst.
    constructor; [|now apply IH]. eapply Permutation_Forall; eassumption.
  - intros H. inversion H as [|? ? Hy Hl]; subst.
    inversion Hl as [|? ? Hx Hl']; subst. inversion Hy as [|? ? Hyx Hy']; subst.
    constructor; [|now constructor].
    constructor; [|assumption]. now rewrite key_eqb_sym.
  - auto.
Qed.
End Facts.

(** What does not depend on the order of rows with equal timestamps: for
    every function that returns its input in ascending order, the table
    left after dropping duplicates meets the artifact invariant, holds one
    row for each key of the input, and holds every row of an input whose keys
    are distinct. *)
Section AnySorter.
Context {T : Type} (leb eqb : T -> T -> bool).
Hypothesis order : column_order leb eqb.
Variable sorter : list (Row T) -> list (Row T).
Hypothesis sorter_perm : forall t, Permutation (sorter t) t.
Hypothesis sorter_ascending : forall t, ascending leb (sorter t).

Remark any_sorter_canonical (t : list (Row T)) :
  canonical leb eqb (drop_duplicates eqb (sorter t)).
Proof.
  split.
  - apply (drop_seen_distinct _ _ order).
  - apply drop_seen_ascending, sorter_ascending.
Qed.

Remark any_sorter_once (k : T * string) (t : list (Row T)) :
  (exists r, In r t /\ key_eqb eqb k (key r) = true) ->
  List.length (filter (fun r => key_eqb eqb k (key r)) (drop_duplicates eqb (sorter t))) = 1%nat.
Proof.
  intros [r [Hr Hk]].
  pose proof (distinct_count _ _ order k _ (proj1 (any_sorter_canonical t))) as Hle.
  destruct (find (fun r => key_eqb eqb k (key r)) (drop_duplicates eqb (sorter t)))
    as [x|] eqn:E.
  - apply find_some in E. destruct E as [Hin Hx].
    assert (In x (filter (fun r => key_eqb eqb k (key r)) (drop_duplicates eqb (sorter t))))
      as Hf by (apply filter_In; split; assumption).
    destruct (filter _ (drop_duplicates eqb (sorter t))); simpl in *; [contradiction|lia].
  - unfold drop_duplicates in E. rewrite (drop_seen_find _ _ order) in E by reflexivity.
    assert (In r (sorter t)) as Hin
      by (eapply Permutation_in; [symmetry; apply sorter_perm|exact Hr]).
    pose proof (find_none _ _ E r Hin) as H. simpl in H. congruence.
Qed.

Remark any_sorter_distinct (t : list (Row T)) :
  distinct_keys eqb t -> Permutation (drop_duplicates eqb (sorter t)) t.
Proof.
  intros Ht. unfold drop_duplicates. rewrite (drop_seen_fixed _ _ order).
  - apply sorter_perm.
  - eapply (distinct_keys_perm _ _ order); [symmetry; apply sorter_perm|assumption].
  - apply Forall_forall. reflexivity.
Qed.
End AnySorter.

End FrameFacts.

(** ** Reasoning on runs *)

Module RunFacts.
Import Py Run.

(** [keeps I Q m]: [m] keeps the invariant [I] of the trace, and a value it
    returns satisfies [Q]. *)
Definition keeps {A} (I : state -> Prop) (Q : A -> Prop) (m : M A) : Prop :=
  forall s, I s -> I (snd (m s)) /\ (forall a, fst (m s) = inr a -> Q a).

(** Every file written so far satisfies [ok]. *)
Definition files_ok (ok : content -> Prop) (s : state) : Prop :=
  Forall (fun f => ok (snd f)) (files s).

Lemma keeps_weaken {A} (I : state -> Prop) (Q Q' : A -> Prop) (m : M A) :
  (forall a, Q a -> Q' a) -> keeps I Q m -> keeps I Q' m.
Proof.
  intros HQ Hm s Hs. destruct (Hm s Hs) as [H1 H2]. split; [assumption|].
  intros a Ha. apply HQ, H2, Ha.
Qed.

Lemma keeps_ret {A} (I : state -> Prop) (Q : A -> Prop) (a : A) :
  Q a -> keeps I Q (mret a).
Proof. intros Ha s Hs. split; [assumption|]. simpl. intros b Hb. congruence. Qed.

Lemma keeps_lift {A} (I : state -> Prop) (Q : A -> Prop) (r : result A) :
  (forall a, r = inr a -> Q a) -> keeps I Q (lift r).
Proof. intros Hr s Hs. split; [assumption|]. simpl. exact Hr. Qed.

Lemma keeps_bind {A B} (I : state -> Prop) (Q : A -> Prop) (R : B -> Prop)
    (m : M A) (k : A -> M B) :
  keeps I Q m -> (forall a, Q a -> keeps I R (k a)) -> keeps I R (mbind m k).
Proof.
  intros Hm Hk s Hs. unfold mbind. destruct (Hm s Hs) as [H1 H2].
  destruct (m s) as [[e|a] s1]; simpl in *.
  - split; [assumption|]. intros b Hb. discriminate.
  - apply (Hk a (H2 a eq_refl) s1 H1).
Qed.

Lemma keeps_for_each {A} (I : state -> Prop) (l : list A) (body : A -> M unit) :
  (forall x, In x l -> keeps I (fun _ => True) (body x)) ->
  keeps I (fun _ => True) (for_each l body).
Proof.
  induction l as [|x l IH]; intros Hb; simpl.
  - now apply keeps_ret.
  - eapply keeps_bind.
    + apply Hb. now left.
    + intros _ _. apply IH. intros y Hy. apply Hb. now right.
Qed.


Lemma keeps_logging (ok : content -> Prop) (l : level) (msg : string) :
  keeps (files_ok ok) (fun _ => True) (logging l msg).
Proof. intros s Hs. split; trivial. Qed.

Lemma keeps_sent (ok : content -> Prop) (params : list (string * string)) :
  keeps (files_ok ok) (fun _ => True) (sent params).
Proof. intros s Hs. split; trivial. Qed.

Lemma keeps_write (ok : content -> Prop) (path : string) (c : content) :
  ok c -> keeps (files_ok ok) (fun _ => True) (write_file path c).
Proof.
  intros Hc s Hs. split; trivial. unfold files_ok, write_file in *. simpl.
  apply Forall_app. split; [assumption|]. now repeat constructor.
Qed.



End RunFacts.

(** ** The fetch of one unit *)

Module RetrievalFacts.
Import Py Run Retrieval RunFacts.

Ltac run_step :=
  match goal with
  | |- context [match ?x with _ => _ end] => destruct x eqn:?; cbn [fst snd requests log files]
  end.

Ltac run := unfold mbind, lift, logging, sent, write_file, mret; cbn [fst snd requests log files].

Section Env.
Variable API_TOKEN : string.
Variable requests_get : string -> list (string * string) -> result response.
Variable now : Datetime.datetime.

(** A fetch writes no file, sends its one request when the dataset key is
    known, and returns or raises the same from any trace. *)
Lemma retrieve_trace (area_code dataset_key : string) (start_date end_date : Datetime.datetime)
    (s : state) :
  let r := retrieve_entsoe_data API_TOKEN requests_get area_code dataset_key start_date end_date s in
  fst r = fetched API_TOKEN requests_get start_date end_date (area_code, dataset_key) /\
  files (snd r) = files s /\
  requests (snd r) =
    (requests s ++
     match dict_get dataset_key DATASETS with
     | Some _ => [request_of API_TOKEN start_date end_date (area_code, dataset_key)]
     | None => []
     end)%list.
Proof.
  unfold fetched, request_of, retrieve_entsoe_data. run.
  destruct (dict_get dataset_key DATASETS) as [dataset|]; cbn [of_option fst snd requests log files].
  2: { now rewrite app_nil_r. }
  repeat run_step; auto.
Qed.

Lemma retrieve_transport_failure (area_code dataset_key : string)
    (start_date end_date : Datetime.datetime) (dataset : dataset_config) (r : response)
    (s : state) :
  dict_get dataset_key DATASETS = Some dataset ->
  requests_get BASE_URL (build_params API_TOKEN dataset area_code start_date end_date) = inr r ->
  transport_failure r = true ->
  exists m1 m2,
    retrieve_entsoe_data API_TOKEN requests_get area_code dataset_key start_date end_date s =
    (inr None,
     {| requests := (requests s ++ [build_params API_TOKEN dataset area_code start_date end_date])%list;
        log := (log s ++ [(INFO, m1); (ERROR, m2)])%list;
        files := files s |}).
Proof.
  intros Hd Hr Hf. unfold retrieve_entsoe_data. run.
  rewrite Hd. cbn [of_option]. rewrite Hr.
  unfold transport_failure in Hf. rewrite Hf. cbn [fst snd requests log files].
  rewrite <- app_assoc. simpl. eauto.
Qed.

Lemma without_timeseries_test (r : response) :
  without_timeseries r = true ->
  exists data_dict, document r = inr data_dict /\
                    no_timeseries (market_doc_of data_dict) = inr true.
Proof.
  unfold without_timeseries, no_timeseries.
  destruct (document r) as [e|data_dict]; [discriminate|].
  intros H. exists data_dict. split; [reflexivity|].
  destruct (market_doc_of data_dict) as [|t|children|items]; try discriminate.
  - reflexivity.
  - destruct children as [|c children]; [reflexivity|].
    cbn [truthy negb has bind ret].
    destruct (dict_get "TimeSeries" (c :: children)); [discriminate|reflexivity].
Qed.

Lemma retrieve_without_timeseries (area_code dataset_key : string)
    (start_date end_date : Datetime.datetime) (dataset : dataset_config) (r : response)
    (s : state) :
  dict_get dataset_key DATASETS = Some dataset ->
  requests_get BASE_URL (build_params API_TOKEN dataset area_code start_date end_date) = inr r ->
  transport_failure r = false ->
  without_timeseries r = true ->
  exists m1 m2,
    retrieve_entsoe_data API_TOKEN requests_get area_code dataset_key start_date end_date s =
    (inr None,
     {| requests := (requests s ++ [build_params API_TOKEN dataset area_code start_date end_date])%list;
        log := (log s ++ [(INFO, m1); (WARNING, m2)])%list;
        files := files s |}).
Proof.
  intros Hd Hr Hf Hw. unfold retrieve_entsoe_data. run.
  rewrite Hd. cbn [of_option]. rewrite Hr.
  unfold transport_failure in Hf. rewrite Hf. cbn [fst snd requests log files].
  destruct (without_timeseries_test r Hw) as [data_dict [H1 H2]].
  rewrite H1, H2. cbn [fst snd requests log files].
  rewrite <- app_assoc. simpl. eauto.
Qed.

(** A table the assembler returns meets the artifact invariant and has a row. *)
Lemma assemble_canonical (records t : list (Frame.Row string)) :
  assemble records = inr t ->
  Frame.canonical Frame.text_leb Frame.text_eqb t /\ t <> [].
Proof.
  unfold assemble. destruct records as [|r records]; [discriminate|].
  intros H. injection H as <-. split.
  - apply FrameFacts.sort_dedup_canonical, FrameFacts.text_order.
  - apply (FrameFacts.sort_dedup_nonempty _ _ FrameFacts.text_order). discriminate.
Qed.

Lemma fetched_canonical (start_date end_date : Datetime.datetime) (u : string * string)
    (t : list (Frame.Row string)) :
  fetched API_TOKEN requests_get start_date end_date u = inr (Some t) ->
  Frame.canonical Frame.text_leb Frame.text_eqb t /\ t <> [].
Proof.
  unfold fetched, retrieve_entsoe_data. run.
  repeat run_step; try discriminate.
  intros H. injection H as <-. eapply assemble_canonical; eassumption.
Qed.

Lemma keeps_retrieve (ok : content -> Prop) (area_code dataset_key : string)
    (start_date end_date : Datetime.datetime) :
  keeps (files_ok ok)
    (fun df => forall t, df = Some t ->
                 Frame.canonical Frame.text_leb Frame.text_eqb t /\ t <> [])
    (retrieve_entsoe_data API_TOKEN requests_get area_code dataset_key start_date end_date).
Proof.
  intros s Hs.
  destruct (retrieve_trace area_code dataset_key start_date end_date s) as [H1 [H2 _]].
  split.
  - unfold files_ok. now rewrite H2.
  - intros df Hdf t ->. rewrite H1 in Hdf. eapply fetched_canonical; eassumption.
Qed.

Lemma has_rows_frame (df : option (list (Frame.Row string))) :
  has_rows df = true -> df = Some (frame_of df).
Proof. destruct df as [[|r t]|]; simpl; congruence. Qed.

Lemma keeps_zone_unit (country_name : string) (start_date end_date : Datetime.datetime)
    (output_folder : string) (zone : string * string) :
  keeps (files_ok monthly_ok) (fun _ => True)
    (zone_unit API_TOKEN requests_get now country_name "day_ahead_prices" start_date end_date
       output_folder zone).
Proof.
  destruct zone as [zone_code zone_label]. unfold zone_unit.
  eapply keeps_bind; [apply keeps_logging|]. intros _ _.
  eapply keeps_bind; [apply keeps_retrieve|]. intros df Hdf.
  destruct (has_rows df) eqn:E; [|apply keeps_logging].
  eapply keeps_bind; [apply keeps_write|].
  { apply Hdf, has_rows_frame, E. }
  intros _ _. eapply keeps_bind; [apply keeps_logging|]. intros _ _.
  eapply keeps_bind; [apply (keeps_lift _ (fun _ => True)); trivial|]. intros config _.
  eapply keeps_bind; [apply keeps_write|intros _ _; apply keeps_logging].
  left. split; reflexivity.
Qed.

Lemma keeps_country_unit (country_name country_code dataset_key : string)
    (start_date end_date : Datetime.datetime) (output_folder : string) :
  String.eqb dataset_key "day_ahead_prices" = false ->
  keeps (files_ok monthly_ok) (fun _ => True)
    (country_unit API_TOKEN requests_get now country_name country_code dataset_key
       start_date end_date output_folder).
Proof.
  intros Hk. unfold country_unit.
  eapply keeps_bind; [apply keeps_logging|]. intros _ _.
  eapply keeps_bind; [apply keeps_retrieve|]. intros df Hdf.
  destruct (has_rows df) eqn:E; [|apply keeps_logging].
  eapply keeps_bind; [apply keeps_write|].
  { apply Hdf, has_rows_frame, E. }
  intros _ _. eapply keeps_bind; [apply keeps_logging|]. intros _ _.
  eapply keeps_bind; [apply (keeps_lift _ (fun _ => True)); trivial|]. intros config _.
  eapply keeps_bind; [apply keeps_write|intros _ _; apply keeps_logging].
  right. split; [reflexivity|].
  cbn. intros H. injection H as H. apply String.eqb_neq in Hk. congruence.
Qed.

Lemma keeps_retrieve_entsoe_datasets (countries : list (string * string))
    (datasets : list string) (start_date end_date : Datetime.datetime)
    (output_folder : string) :
  keeps (files_ok monthly_ok) (fun _ => True)
    (retrieve_entsoe_datasets API_TOKEN requests_get now countries datasets start_date
       end_date output_folder).
Proof.
  unfold retrieve_entsoe_datasets.
  apply keeps_for_each. intros [country_name country_code] _.
  apply keeps_for_each. intros dataset_key _.
  destruct (String.eqb dataset_key "day_ahead_prices") eqn:E.
  - apply String.eqb_eq in E. subst.
    apply keeps_for_each. intros zone _. apply keeps_zone_unit.
  - now apply keeps_country_unit.
Qed.

Lemma keeps_retrieve_monthly (countries : list (string * string)) (datasets : list string)
    (year : Z) (output_folder : string) :
  keeps (files_ok monthly_ok) (fun _ => True)
    (retrieve_monthly_entsoe_datasets API_TOKEN requests_get now countries datasets year
       output_folder).
Proof.
  unfold retrieve_monthly_entsoe_datasets.
  apply keeps_for_each. intros month _.
  eapply keeps_bind; [apply (keeps_lift _ (fun _ => True)); trivial|]. intros start_date _.
  eapply keeps_bind; [apply (keeps_lift _ (fun _ => True)); trivial|]. intros end_date _.
  eapply keeps_bind; [apply keeps_logging|]. intros _ _.
  apply keeps_retrieve_entsoe_datasets.
Qed.

(** *** The requests of a run *)









End Env.

End RetrievalFacts.

(** ** The merge of one group *)

Module PreprocessingFacts.
Import Py Run Preprocessing RunFacts.

Lemma map_r_in {A B} (f : A -> result B) (l : list A) (l' : list B) :
  map_r f l = inr l' ->
  (forall x, In x l -> exists y, f x = inr y /\ In y l') /\
  (forall y, In y l' -> exists x, In x l /\ f x = inr y).
Proof.
  revert l'. induction l as [|a l IH]; intros l'; simpl.
  - intros H. injection H as <-. split; intros ? [].
  - destruct (f a) as [e|b] eqn:Ea; [discriminate|].
    destruct (map_r f l) as [e|bs]; [discriminate|].
    intros H. injection H as <-. destruct (IH bs eq_refl) as [H1 H2]. split.
    + intros x [<-|Hx]; [exists b; split; [assumption|now left]|].
      destruct (H1 x Hx) as [y [Hy Hin]]. exists y. split; [assumption|now right].
    + intros y [<-|Hy]; [exists a; split; [now left|assumption]|].
      destruct (H2 y Hy) as [x [Hx Hin]]. exists x. split; [now right|assumption].
Qed.

Lemma to_datetime_rows (t : list (Frame.Row string)) (c : list (Frame.Row Datetime.datetime)) :
  to_datetime t = inr c -> map_r parse_row t = inr c.
Proof.
  unfold to_datetime, bind. destruct (map_r parse_row t) as [e|rows]; [discriminate|].
  destruct rows as [|r rest]; [trivial|].
  destruct (forallb _ rest); [trivial|discriminate].
Qed.

Section Env.
Variable glob_csv : string -> list string.
Variable read_csv : string -> result (list (Frame.Row string)).
Variable now : Datetime.datetime.



End Env.

End PreprocessingFacts.

(** * The claims *)

(** C1. The merge engine reads the grouping key of a monthly file off its
    name alone, and it always takes the second part of the name for the
    bidding zone. A name without a zone, as the fetch driver writes it for a
    dataset other than prices, is therefore cut one part too early:
    DE_actual_load_20240101_20240201.csv and
    DE_actual_load_20240201_20240301.csv get the key
    (DE, actual, load, 2024), where the claim has (DE, actual_load, 2024)
    with no sub-zone. The two files still fall into one group, and the
    yearly metadata of that group names the bidding zone "actual" and the
    dataset "load". A name with a zone is read as the claim says. *)
Theorem zoneless_name_is_cut_one_part_early :
  Preprocessing.file_key "DE_actual_load_20240101_20240201.csv"
    = Some ("DE", "actual", "load", "2024") /\
  Preprocessing.file_key "DE_actual_load_20240201_20240301.csv"
    = Some ("DE", "actual", "load", "2024") /\
  Preprocessing.group_files [Examples.january_file; Examples.february_file]
    = [(("DE", "actual", "load", "2024"), [Examples.january_file; Examples.february_file])] /\
  (exists table metadata,
     Run.files (snd (Preprocessing.merge_monthly_to_yearly Examples.folder Examples.reader
                       Examples.clock "output/entsoe" "output/entsoe/yearly" Run.initial))
       = [("output/entsoe/yearly/DE_actual_load_2024.csv", Run.YearlyCsv table);
          ("output/entsoe/yearly/DE_actual_load_2024_metadata.json", Run.Json metadata)] /\
     Py.dict_get "bidding_zone" metadata = Some (Run.JStr "actual") /\
     Py.dict_get "dataset" metadata = Some (Run.JStr "load")) /\
  Preprocessing.file_key "Germany_DE-LU_day_ahead_prices_20240101_20240201.csv"
    = Some ("Germany", "DE-LU", "day_ahead_prices", "2024").
Proof.
  repeat split; try reflexivity.
  eexists. eexists. split; [vm_compute; reflexivity|]. split; reflexivity.
Qed.









(** ** The timestamps of a period *)

Module ParserFacts.
Import Py Retrieval.

Lemma somes_in {A} (l : list (option A)) (a : A) : In a (somes l) -> In (Some a) l.
Proof.
  unfold somes. rewrite in_flat_map. intros [[b|] [Hin Hb]]; simpl in Hb.
  - destruct Hb as [<-|[]]. assumption.
  - contradiction.
Qed.

(** A record of a point carries the timestamp computed for its position. *)
Lemma point_record_timestamp (area_code dataset_key prod_type unit : string)
    (interval_start : Datetime.datetime) (step : Z) (point : xml) (r : Frame.Row string) :
  point_record area_code dataset_key prod_type unit interval_start step point = inr (Some r) ->
  exists position ts,
    position_of point = inr position /\
    point_timestamp interval_start step position = inr ts /\
    Frame.timestamp r = Datetime.isoformat ts.
Proof.
  unfold point_record, bind. intros H.
  destruct (position_of point) as [e|position] eqn:Ep; [discriminate|].
  destruct (point_timestamp interval_start step position) as [e|ts] eqn:Et; [discriminate|].
  exists position, ts. split; [reflexivity|]. split; [assumption|].
  repeat match type of H with
         | context [match ?x with _ => _ end] => destruct x; try discriminate
         end;
    unfold ret in H; injection H as <-; reflexivity.
Qed.

Lemma period_records_timestamps (area_code dataset_key prod_type unit : string)
    (period : xml) (rows : list (Frame.Row string)) :
  period_records area_code dataset_key prod_type unit period = inr rows ->
  exists interval s interval_start resolution points,
    subscript period "timeInterval" = inr interval /\
    subscript interval "start" = inr s /\
    parse_instant s = inr interval_start /\
    get period "resolution" (XText "PT60M") = inr resolution /\
    subscript period "Point" = inr points /\
    forall r, In r rows ->
      exists point position ts,
        In point (as_list points) /\
        position_of point = inr position /\
        point_timestamp interval_start (step_minutes resolution) position = inr ts /\
        Frame.timestamp r = Datetime.isoformat ts.
Proof.
  unfold period_records, bind. intros H.
  destruct (subscript period "timeInterval") as [e|interval] eqn:E1; [discriminate|].
  destruct (subscript interval "start") as [e|s] eqn:E2; [discriminate|].
  destruct (parse_instant s) as [e|interval_start] eqn:E3; [discriminate|].
  destruct (subscript interval "end") as [e|en]; [discriminate|].
  destruct (parse_instant en) as [e|interval_end]; [discriminate|].
  destruct (get period "resolution" (XText "PT60M")) as [e|resolution] eqn:E4; [discriminate|].
  destruct (subscript period "Point") as [e|points] eqn:E5; [discriminate|].
  destruct (map_r _ (as_list points)) as [e|records] eqn:Em; [discriminate|].
  injection H as <-.
  exists interval, s, interval_start, resolution, points.
  do 5 (split; [first [assumption|reflexivity]|]).
  intros r Hr. apply somes_in in Hr.
  destruct (proj2 (PreprocessingFacts.map_r_in _ _ _ Em) _ Hr) as [point [Hin Hp]].
  destruct (point_record_timestamp _ _ _ _ _ _ _ _ Hp) as [position [ts [H1 [H2 H3]]]].
  exists point, position, ts. auto.
Qed.

Lemma point_timestamp_wall (interval_start ts : Datetime.datetime) (step position : Z) :
  point_timestamp interval_start step position = inr ts ->
  Datetime.wall ts = Datetime.wall interval_start + 60 * (step * (position - 1)) /\
  Datetime.utcoffset ts = Datetime.utcoffset interval_start.
Proof.
  unfold point_timestamp, Datetime.add_minutes.
  destruct (_ && _); [|discriminate]. intros H. injection H as <-. split; reflexivity.
Qed.

Lemma step_minutes_other (resolution : xml) :
  resolution <> XText "PT15M" -> resolution <> XText "PT30M" -> step_minutes resolution = 60.
Proof.
  intros H15 H30. destruct resolution as [|r| |]; try reflexivity. simpl.
  destruct (String.eqb r "PT15M") eqn:E15.
  { apply String.eqb_eq in E15. congruence. }
  destruct (String.eqb r "PT30M") eqn:E30.
  { apply String.eqb_eq in E30. congruence. }
  reflexivity.
Qed.

End ParserFacts.

(** C6. The timestamp of a parsed point is the interval start of its period
    moved by (position - 1) steps: a step is 15 minutes for PT15M, 30 for
    PT30M, and 60 for any other resolution and for a period without one. The
    wall clock advances by 60 seconds for each minute and the offset of the
    interval start is kept. The period of four quarter hours from
    2024-01-01T00:00Z gives 00:00, 00:15, 00:30 and 00:45 UTC. *)
Theorem point_timestamp_is_start_plus_steps :
  Retrieval.step_minutes (Retrieval.XText "PT15M") = 15 /\
  Retrieval.step_minutes (Retrieval.XText "PT30M") = 30 /\
  (forall resolution,
     resolution <> Retrieval.XText "PT15M" -> resolution <> Retrieval.XText "PT30M" ->
     Retrieval.step_minutes resolution = 60) /\
  (forall children,
     Py.dict_get "resolution" children = None ->
     Retrieval.get (Retrieval.XElem children) "resolution" (Retrieval.XText "PT60M")
       = inr (Retrieval.XText "PT60M")) /\
  (forall interval_start step position ts,
     Retrieval.point_timestamp interval_start step position = inr ts ->
     Datetime.wall ts = Datetime.wall interval_start + 60 * (step * (position - 1)) /\
     Datetime.utcoffset ts = Datetime.utcoffset interval_start) /\
  (forall area_code dataset_key prod_type unit period rows,
     Retrieval.period_records area_code dataset_key prod_type unit period = inr rows ->
     exists interval s interval_start resolution points,
       Retrieval.subscript period "timeInterval" = inr interval /\
       Retrieval.subscript interval "start" = inr s /\
       Retrieval.parse_instant s = inr interval_start /\
       Retrieval.get period "resolution" (Retrieval.XText "PT60M") = inr resolution /\
       Retrieval.subscript period "Point" = inr points /\
       forall r, In r rows ->
         exists point position ts,
           In point (Retrieval.as_list points) /\
           Retrieval.position_of point = inr position /\
           Retrieval.point_timestamp interval_start (Retrieval.step_minutes resolution) position
             = inr ts /\
           Frame.timestamp r = Datetime.isoformat ts) /\
  (exists rows,
     Retrieval.period_records "10YDE" "actual_generation" "Solar" "MW" Examples.quarter_hours
       = inr rows /\
     List.map Frame.timestamp rows =
       List.map Datetime.isoformat
         [Datetime.utc 2024 1 1 0 0; Datetime.utc 2024 1 1 0 15;
          Datetime.utc 2024 1 1 0 30; Datetime.utc 2024 1 1 0 45] /\
     List.map Frame.timestamp rows =
       ["2024-01-01T00:00:00+00:00"; "2024-01-01T00:15:00+00:00";
        "2024-01-01T00:30:00+00:00"; "2024-01-01T00:45:00+00:00"]).
Proof.
  split; [reflexivity|]. split; [reflexivity|].
  split; [apply ParserFacts.step_minutes_other|].
  split; [intros children H; simpl; now rewrite H|].
  split; [intros interval_start step position ts; apply ParserFacts.point_timestamp_wall|].
  split; [apply ParserFacts.period_records_timestamps|].
  eexists. split; [vm_compute; reflexivity|]. split; vm_compute; reflexivity.
Qed.

(** The period without a resolution: its second point is one hour after the
    first. *)
Lemma point_timestamp_is_start_plus_steps_witness :
  exists rows,
    Retrieval.period_records "10YDE" "actual_load" "Actual_Load" "MW" Examples.hours = inr rows /\
    forall r, In r rows ->
      exists position ts,
        Retrieval.point_timestamp (Datetime.utc 2024 1 1 0 0) 60 position = inr ts /\
        Frame.timestamp r = Datetime.isoformat ts.
Proof.
  destruct (Retrieval.period_records "10YDE" "actual_load" "Actual_Load" "MW" Examples.hours)
    as [e|rows] eqn:Hrows.
  { vm_compute in Hrows. discriminate. }
  exists rows. split; [reflexivity|]. intros r Hr.
  destruct (proj1 (proj2 (proj2 (proj2 (proj2 (proj2 point_timestamp_is_start_plus_steps)))))
              _ _ _ _ _ _ Hrows)
    as [interval [s [interval_start [resolution [points [H1 [H2 [H3 [H4 [H5 H6]]]]]]]]]].
  destruct (H6 r Hr) as [point [position [ts [_ [_ [Hts Hiso]]]]]].
  vm_compute in H1. injection H1 as <-.
  vm_compute in H2. injection H2 as <-.
  vm_compute in H3. injection H3 as <-.
  vm_compute in H4. injection H4 as <-.
  exists position, ts. split; assumption.
Defined.

(** C7. For a group whose files are read and whose concatenated table has a
    row, the merge engine writes the merged table and then metadata that is
    read off that table: the unit is the unit of its first row, period_start
    and period_end are the ISO texts of a least and of a greatest timestamp
    of its timestamp column, and source_files lists the base name of every
    file of the group. No metadata file of the monthly store is read. *)
Theorem yearly_metadata_is_derived_from_the_merged_table
    (read_csv : string -> Py.result (list (Frame.Row string))) (now : Datetime.datetime)
    (yearly_folder country bidding_zone dataset year : string) (files : list string)
    (tables : list (list (Frame.Row string)))
    (combined : list (Frame.Row Datetime.datetime)) (s : Run.state) :
  Py.map_r read_csv files = inr tables ->
  Preprocessing.to_datetime (List.concat tables) = inr combined ->
  combined <> [] ->
  let run := Preprocessing.merge_group read_csv now yearly_folder
               (country, bidding_zone, dataset, year) files s in
  let yearly_filename :=
    country ++ "_" ++ bidding_zone ++ "_" ++ dataset ++ "_" ++ year ++ ".csv" in
  let merged := Frame.sort_dedup Frame.instant_leb Frame.instant_eqb combined in
  let column := List.map Frame.timestamp merged in
  exists first rest metadata period_start period_end,
    merged = first :: rest /\
    fst run = inr tt /\
    Run.files (snd run) =
      (Run.files s ++
       [(Py.path_join yearly_folder yearly_filename, Run.YearlyCsv merged);
        (Py.path_join yearly_folder (Py.replace ".csv" "_metadata.json" yearly_filename),
         Run.Json metadata)])%list /\
    Py.dict_get "unit" metadata = Some (Run.JStr (Frame.unit first)) /\
    In period_start column /\
    (forall t, In t column -> Frame.instant_leb period_start t = true) /\
    Py.dict_get "period_start" metadata = Some (Run.JStr (Datetime.isoformat period_start)) /\
    In period_end column /\
    (forall t, In t column -> Frame.instant_leb t period_end = true) /\
    Py.dict_get "period_end" metadata = Some (Run.JStr (Datetime.isoformat period_end)) /\
    Py.dict_get "source_files" metadata = Some (Run.JList (List.map Py.basename files)).
Proof.
  intros Hread Hparse Hne run yearly_filename merged column.
  assert (Preprocessing.merged_table read_csv files = inr merged) as Hm.
  { unfold Preprocessing.merged_table. rewrite Hread. simpl. rewrite Hparse. reflexivity. }
  pose proof (FrameFacts.sort_dedup_nonempty _ _ FrameFacts.instant_order combined Hne) as Hmne.
  fold merged in Hmne. subst column.
  destruct merged as [|first rest] eqn:Em; [congruence|]. clear Hmne.
  destruct (FrameFacts.column_min_spec _ _ FrameFacts.instant_order
              (Frame.timestamp first) (List.map Frame.timestamp rest)) as [Hlo1 Hlo2].
  destruct (FrameFacts.column_max_spec _ _ FrameFacts.instant_order
              (Frame.timestamp first) (List.map Frame.timestamp rest)) as [Hhi1 Hhi2].
  exists first, rest. eexists.
  exists (Frame.column_min Frame.instant_leb (Frame.timestamp first)
            (List.map Frame.timestamp rest)).
  exists (Frame.column_max Frame.instant_leb (Frame.timestamp first)
            (List.map Frame.timestamp rest)).
  subst run. unfold Preprocessing.merge_group, Run.try_except.
  unfold Run.mbind, Run.lift, Run.logging, Run.write_file.
  rewrite Hm. cbn [fst snd Run.requests Run.log Run.files Preprocessing.yearly_metadata Py.ret].
  split; [reflexivity|].
  split; [reflexivity|].
  split; [rewrite <- app_assoc; reflexivity|].
  split; [reflexivity|].
  split; [exact Hlo1|]. split; [exact Hlo2|]. split; [reflexivity|].
  split; [exact Hhi1|]. split; [exact Hhi2|]. split; reflexivity.
Qed.

(** The group of the two monthly load files of 2024: the merged table runs
    from 2024-01-31T22:00 to 2024-02-01T01:00 UTC. *)
Lemma yearly_metadata_is_derived_from_the_merged_table_witness :
  exists table metadata,
    Run.files (snd (Preprocessing.merge_group Examples.reader Examples.clock
                      "output/entsoe/yearly" ("DE", "actual", "load", "2024")
                      [Examples.january_file; Examples.february_file] Run.initial))
      = [("output/entsoe/yearly/DE_actual_load_2024.csv", Run.YearlyCsv table);
         ("output/entsoe/yearly/DE_actual_load_2024_metadata.json", Run.Json metadata)] /\
    List.map Frame.timestamp table
      = [Datetime.utc 2024 1 31 22 0; Datetime.utc 2024 1 31 23 0;
         Datetime.utc 2024 2 1 0 0; Datetime.utc 2024 2 1 1 0] /\
    Py.dict_get "unit" metadata = Some (Run.JStr "MW") /\
    Py.dict_get "source_files" metadata
      = Some (Run.JList ["DE_actual_load_20240101_20240201.csv";
                         "DE_actual_load_20240201_20240301.csv"]).
Proof.
  destruct (Preprocessing.to_datetime (Examples.january_table ++ Examples.february_table))
    as [e|combined] eqn:Hparse.
  { vm_compute in Hparse. discriminate. }
  destruct (yearly_metadata_is_derived_from_the_merged_table Examples.reader Examples.clock
              "output/entsoe/yearly" "DE" "actual" "load" "2024"
              [Examples.january_file; Examples.february_file]
              [Examples.january_table; Examples.february_table] combined Run.initial)
    as [first [rest [metadata [lo [hi [Hm [_ [Hf [Hu [_ [_ [_ [_ [_ [_ Hs]]]]]]]]]]]]]]].
  - reflexivity.
  - cbn [List.concat]. rewrite app_nil_r. exact Hparse.
  - vm_compute in Hparse. injection Hparse as <-. discriminate.
  - vm_compute in Hparse. injection Hparse as <-.
    exists (Frame.sort_dedup Frame.instant_leb Frame.instant_eqb
              [Frame.mkRow (Datetime.utc 2024 1 31 22 0) "10Y1001A1001A83F" "actual_load"
                 "Actual_Load" {| Py.mantissa := 50; Py.places := 0 |} "MW";
               Frame.mkRow (Datetime.utc 2024 1 31 23 0) "10Y1001A1001A83F" "actual_load"
                 "Actual_Load" {| Py.mantissa := 51; Py.places := 0 |} "MW";
               Frame.mkRow (Datetime.utc 2024 2 1 0 0) "10Y1001A1001A83F" "actual_load"
                 "Actual_Load" {| Py.mantissa := 52; Py.places := 0 |} "MW";
               Frame.mkRow (Datetime.utc 2024 2 1 0 0) "10Y1001A1001A83F" "actual_load"
                 "Actual_Load" {| Py.mantissa := 52; Py.places := 0 |} "MW";
               Frame.mkRow (Datetime.utc 2024 2 1 1 0) "10Y1001A1001A83F" "actual_load"
                 "Actual_Load" {| Py.mantissa := 53; Py.places := 0 |} "MW"]).
    exists metadata. split; [|split; [|split]].
    + rewrite Hf. vm_compute. reflexivity.
    + vm_compute. reflexivity.
    + vm_compute in Hm. injection Hm as <- _. exact Hu.
    + exact Hs.
Defined.

(** C8. A unit whose response is not a 200, or whose body has no known root
    element or a root element without a TimeSeries child, writes nothing:
    the unit returns without an exception, the files are those from before
    -- no table and no metadata, not even in part -- and the log has gained
    the two start lines, one line of the fetch (an error for the refused
    request, a warning for the missing series) and the warning that no data
    is available. This holds for a unit fetched by country code and for a
    unit fetched by bidding zone. *)
Theorem skipped_unit_writes_no_artifact
    (API_TOKEN : string)
    (requests_get : string -> list (string * string) -> Py.result Retrieval.response)
    (now : Datetime.datetime) (country_name area_code label dataset_key : string)
    (dataset : Retrieval.dataset_config) (start_date end_date : Datetime.datetime)
    (output_folder : string) (response : Retrieval.response) (s : Run.state) :
  Py.dict_get dataset_key Retrieval.DATASETS = Some dataset ->
  requests_get Retrieval.BASE_URL
    (Retrieval.build_params API_TOKEN dataset area_code start_date end_date) = inr response ->
  Retrieval.transport_failure response || Retrieval.without_timeseries response = true ->
  Retrieval.skipped response s
    (Retrieval.country_unit API_TOKEN requests_get now country_name area_code dataset_key
       start_date end_date output_folder s) /\
  Retrieval.skipped response s
    (Retrieval.zone_unit API_TOKEN requests_get now country_name dataset_key
       start_date end_date output_folder (area_code, label) s).
Proof.
  intros Hd Hr Hskip.
  assert (forall s1, exists m2 m3,
            Retrieval.retrieve_entsoe_data API_TOKEN requests_get area_code dataset_key
              start_date end_date s1 =
            (inr None,
             {| Run.requests :=
                  (Run.requests s1 ++
                   [Retrieval.build_params API_TOKEN dataset area_code start_date end_date])%list;
                Run.log :=
                  (Run.log s1 ++
                   [(Run.INFO, m2);
                    (if Retrieval.transport_failure response then Run.ERROR else Run.WARNING,
                     m3)])%list;
                Run.files := Run.files s1 |})) as Hfetch.
  { intros s1. destruct (Retrieval.transport_failure response) eqn:Et.
    - eapply RetrievalFacts.retrieve_transport_failure; eassumption.
    - eapply RetrievalFacts.retrieve_without_timeseries; eassumption. }
  unfold Retrieval.skipped. split.
  - unfold Retrieval.country_unit, Run.mbind, Run.logging.
    match goal with
    | |- context [Retrieval.retrieve_entsoe_data _ _ _ _ _ _ ?s1] =>
        destruct (Hfetch s1) as [m2 [m3 ->]]
    end.
    cbn [fst snd Run.requests Run.log Run.files Retrieval.has_rows].
    split; [reflexivity|]. split; [reflexivity|].
    do 4 eexists. rewrite <- !app_assoc. reflexivity.
  - unfold Retrieval.zone_unit, Run.mbind, Run.logging.
    match goal with
    | |- context [Retrieval.retrieve_entsoe_data _ _ _ _ _ _ ?s1] =>
        destruct (Hfetch s1) as [m2 [m3 ->]]
    end.
    cbn [fst snd Run.requests Run.log Run.files Retrieval.has_rows].
    split; [reflexivity|]. split; [reflexivity|].
    do 4 eexists. rewrite <- !app_assoc. reflexivity.
Qed.

(** The refused request of area "r" and the empty answer for area "e", for
    the load of January 2024. *)
Lemma skipped_unit_writes_no_artifact_witness :
  Retrieval.skipped Examples.refused Run.initial
    (Retrieval.country_unit "token" Examples.service Examples.clock "R" "r"
       "actual_load" Examples.january Examples.february "output/entsoe" Run.initial) /\
  Retrieval.skipped Examples.empty Run.initial
    (Retrieval.country_unit "token" Examples.service Examples.clock "E" "e"
       "actual_load" Examples.january Examples.february "output/entsoe" Run.initial).
Proof.
  split.
  - refine (proj1 (skipped_unit_writes_no_artifact "token" Examples.service Examples.clock
                     "R" "r" "" "actual_load"
                     {| Retrieval.documentType := "A65"; Retrieval.processType := "A16";
                        Retrieval.domain := Retrieval.Domain "outBiddingZone_Domain";
                        Retrieval.unit := "MW" |}
                     Examples.january Examples.february "output/entsoe" Examples.refused
                     Run.initial _ _ _)); reflexivity.
  - refine (proj1 (skipped_unit_writes_no_artifact "token" Examples.service Examples.clock
                     "E" "e" "" "actual_load"
                     {| Retrieval.documentType := "A65"; Retrieval.processType := "A16";
                        Retrieval.domain := Retrieval.Domain "outBiddingZone_Domain";
                        Retrieval.unit := "MW" |}
                     Examples.january Examples.february "output/entsoe" Examples.empty
                     Run.initial _ _ _)); reflexivity.
Defined.

(** C9, as the claim states it, fails: the metadata the fetch driver writes
    beside a monthly table has no source_files field, and its time of
    retrieval is named retrieval_timestamp, not retrieved_timestamp. Here
    the two metadata files of a run for one country are listed with their
    fields. *)
Lemma monthly_metadata_has_no_source_files :
  let run := Retrieval.retrieve_entsoe_datasets "token" Examples.service Examples.clock
               [("B", "b")] ["actual_load"; "day_ahead_prices"]
               Examples.january Examples.february "output/entsoe" Run.initial in
  flat_map (fun f => match snd f with
                     | Run.Json fields => [(fst f, List.map fst fields)]
                     | _ => []
                     end) (Run.files (snd run))
  = [("output/entsoe/B_actual_load_20240101_20240201_metadata.json",
      ["country"; "area_code"; "dataset"; "unit"; "period_start"; "period_end";
       "retrieval_timestamp"]);
     ("output/entsoe/B_B_day_ahead_prices_20240101_20240201_metadata.json",
      ["country"; "bidding_zone"; "area_code"; "dataset"; "unit"; "period_start";
       "period_end"; "retrieval_timestamp"])] /\
  Forall (fun f => match snd f with
                   | Run.Json fields =>
                       ~ In "source_files" (List.map fst fields) /\
                       ~ In "retrieved_timestamp" (List.map fst fields)
                   | _ => True
                   end) (Run.files (snd run)).
Proof.
  vm_compute. split; [reflexivity|].
  repeat constructor; intros H; repeat (destruct H as [H|H]; [discriminate|]); exact H.
Qed.

(** C9, amended. The metadata file beside a monthly table has exactly the
    fields country, bidding_zone, area_code, dataset, unit, period_start,
    period_end and retrieval_timestamp when the dataset is day_ahead_prices,
    and the same fields without bidding_zone for every other dataset. *)
Theorem monthly_metadata_fields
    (API_TOKEN : string)
    (requests_get : string -> list (string * string) -> Py.result Retrieval.response)
    (now : Datetime.datetime) (countries : list (string * string)) (datasets : list string)
    (year : Z) (output_folder : string) (path : string) (fields : list (string * Run.json)) :
  In (path, Run.Json fields)
     (Run.files (snd (Retrieval.retrieve_monthly_entsoe_datasets API_TOKEN requests_get now
                        countries datasets year output_folder Run.initial))) ->
  (List.map fst fields = Retrieval.zone_fields /\
   Py.dict_get "dataset" fields = Some (Run.JStr "day_ahead_prices")) \/
  (List.map fst fields = Retrieval.country_fields /\
   Py.dict_get "dataset" fields <> Some (Run.JStr "day_ahead_prices")).
Proof.
  intros Hin.
  destruct (RetrievalFacts.keeps_retrieve_monthly API_TOKEN requests_get now countries
              datasets year output_folder Run.initial) as [H _]; [constructor|].
  unfold RunFacts.files_ok in H. rewrite Forall_forall in H.
  apply (H _ Hin).
Qed.

(** The metadata of the load of area "b" for January 2024. *)
Lemma monthly_metadata_fields_witness :
  let fields :=
    [("country", Run.JStr "B"); ("area_code", Run.JStr "b");
     ("dataset", Run.JStr "actual_load"); ("unit", Run.JStr "MW");
     ("period_start", Run.JStr "2024-01-01T00:00:00+00:00");
     ("period_end", Run.JStr "2024-02-01T00:00:00+00:00");
     ("retrieval_timestamp", Run.JStr "2024-03-05T12:00:00+00:00")] in
  In ("output/entsoe/B_actual_load_20240101_20240201_metadata.json", Run.Json fields)
     (Run.files (snd (Retrieval.retrieve_monthly_entsoe_datasets "token" Examples.service
                        Examples.clock [("B", "b")] ["actual_load"] 2024 "output/entsoe"
                        Run.initial))) /\
  List.map fst fields = Retrieval.country_fields /\
  Py.dict_get "dataset" fields <> Some (Run.JStr "day_ahead_prices").
Proof.
  cbv zeta.
  assert (In ("output/entsoe/B_actual_load_20240101_20240201_metadata.json",
              Run.Json
                [("country", Run.JStr "B"); ("area_code", Run.JStr "b");
                 ("dataset", Run.JStr "actual_load"); ("unit", Run.JStr "MW");
                 ("period_start", Run.JStr "2024-01-01T00:00:00+00:00");
                 ("period_end", Run.JStr "2024-02-01T00:00:00+00:00");
                 ("retrieval_timestamp", Run.JStr "2024-03-05T12:00:00+00:00")])
             (Run.files (snd (Retrieval.retrieve_monthly_entsoe_datasets "token"
                                Examples.service Examples.clock [("B", "b")] ["actual_load"]
                                2024 "output/entsoe" Run.initial)))) as Hin.
  { vm_compute. right. left. reflexivity. }
  split; [exact Hin|].
  destruct (monthly_metadata_fields _ _ _ _ _ _ _ _ _ Hin) as [[H _]|H].
  - discriminate H.
  - exact H.
Defined.

(** C10. A fetch returns the same value, None, when the response is not a
    200 and when a 200 has no known root element or no TimeSeries; it sends
    the same request and writes nothing in both cases. What tells them
    apart is the level of the second log line: an error for the first, a
    warning for the second. *)
Theorem failure_and_empty_result_return_the_same
    (API_TOKEN area_code dataset_key : string) (dataset : Retrieval.dataset_config)
    (start_date end_date : Datetime.datetime) (failed empty : Retrieval.response)
    (s : Run.state) :
  Py.dict_get dataset_key Retrieval.DATASETS = Some dataset ->
  Retrieval.transport_failure failed = true ->
  Retrieval.transport_failure empty = false ->
  Retrieval.without_timeseries empty = true ->
  let a := Retrieval.retrieve_entsoe_data API_TOKEN (fun _ _ => inr failed) area_code
             dataset_key start_date end_date s in
  let b := Retrieval.retrieve_entsoe_data API_TOKEN (fun _ _ => inr empty) area_code
             dataset_key start_date end_date s in
  fst a = inr None /\ fst b = inr None /\
  Run.requests (snd a) = Run.requests (snd b) /\
  Run.files (snd a) = Run.files s /\ Run.files (snd b) = Run.files s /\
  exists m1 m2 m3 m4,
    Run.log (snd a) = (Run.log s ++ [(Run.INFO, m1); (Run.ERROR, m2)])%list /\
    Run.log (snd b) = (Run.log s ++ [(Run.INFO, m3); (Run.WARNING, m4)])%list.
Proof.
  intros Hd Hf He Hw a b.
  destruct (RetrievalFacts.retrieve_transport_failure API_TOKEN (fun _ _ => inr failed)
              area_code dataset_key start_date end_date dataset failed s Hd eq_refl Hf)
    as [m1 [m2 Ha]].
  destruct (RetrievalFacts.retrieve_without_timeseries API_TOKEN (fun _ _ => inr empty)
              area_code dataset_key start_date end_date dataset empty s Hd eq_refl He Hw)
    as [m3 [m4 Hb]].
  subst a b. rewrite Ha, Hb. cbn [fst snd Run.requests Run.log Run.files].
  repeat (split; [reflexivity|]). exists m1, m2, m3, m4. split; reflexivity.
Qed.

(** The refused response and the response without a known root. *)
Lemma failure_and_empty_result_return_the_same_witness :
  fst (Retrieval.retrieve_entsoe_data "token" (fun _ _ => inr Examples.refused) "r"
         "actual_load" Examples.january Examples.february Run.initial) = inr None /\
  fst (Retrieval.retrieve_entsoe_data "token" (fun _ _ => inr Examples.rootless) "r"
         "actual_load" Examples.january Examples.february Run.initial) = inr None.
Proof.
  destruct (failure_and_empty_result_return_the_same "token" "r" "actual_load"
              {| Retrieval.documentType := "A65"; Retrieval.processType := "A16";
                 Retrieval.domain := Retrieval.Domain "outBiddingZone_Domain";
                 Retrieval.unit := "MW" |}
              Examples.january Examples.february Examples.refused Examples.rootless
              Run.initial eq_refl eq_refl eq_refl eq_refl) as [Ha [Hb _]].
  split; assumption.
Defined.

(** * Further properties of the code *)

(** ** Text *)

Module TextFacts.
Import Py.

(** [free c s]: the character [c] does not occur in [s]. *)
Definition free (c : ascii) (s : string) : bool :=
  forallb (fun x => negb (Ascii.eqb x c)) (list_ascii_of_string s).

Lemma free_app (c : ascii) (a b : string) :
  free c (a ++ b) = free c a && free c b.
Proof. induction a as [|x a IH]; simpl; [reflexivity|]. unfold free in *. simpl. now rewrite IH, andb_assoc. Qed.

Lemma free_cons (c x : ascii) (s : string) :
  free c (String x s) = negb (Ascii.eqb x c) && free c s.
Proof. reflexivity. Qed.

Lemma split_nonempty (sep : ascii) (s : string) : split sep s <> [].
Proof.
  induction s as [|c s IH]; simpl; [discriminate|].
  destruct (Ascii.eqb c sep); [discriminate|].
  destruct (split sep s); discriminate.
Qed.

Lemma split_free (sep : ascii) (s : string) : free sep s = true -> split sep s = [s].
Proof.
  unfold free. induction s as [|c s IH]; simpl; [reflexivity|].
  intros H. apply andb_true_iff in H. destruct H as [Hc Hs].
  apply negb_true_iff in Hc. rewrite Hc, (IH Hs). reflexivity.
Qed.

(** A separator cuts between the pieces of what is before it and the pieces
    of what is after it. *)
Lemma split_app (sep : ascii) (a b : string) :
  split sep (a ++ String sep b) = (split sep a ++ split sep b)%list.
Proof.
  induction a as [|c a IH]; simpl.
  - now rewrite Ascii.eqb_refl.
  - destruct (Ascii.eqb c sep); [now rewrite IH|].
    rewrite IH. pose proof (split_nonempty sep a) as Hne.
    destruct (split sep a); [congruence|reflexivity].
Qed.

(** Joining the pieces gives the text back. *)
Lemma join_split (sep : ascii) (s : string) :
  join (String sep EmptyString) (split sep s) = s.
Proof.
  unfold join. induction s as [|c s IH]; simpl; [reflexivity|].
  destruct (Ascii.eqb c sep) eqn:E.
  - apply Ascii.eqb_eq in E. subst c.
    pose proof (split_nonempty sep s) as Hne.
    destruct (split sep s) as [|p ps]; [congruence|].
    simpl in *. now rewrite IH.
  - pose proof (split_nonempty sep s) as Hne.
    destruct (split sep s) as [|p ps]; [congruence|].
    destruct ps as [|q ps]; simpl in *; now rewrite <- IH.
Qed.

Lemma append_assoc (a b c : string) : (a ++ b) ++ c = a ++ (b ++ c).
Proof. induction a as [|x a IH]; simpl; [reflexivity|]. now rewrite IH. Qed.

Lemma take_app (a b : string) : take (String.length a) (a ++ b) = a.
Proof.
  unfold take. induction a as [|c a IH]; simpl.
  - destruct b; reflexivity.
  - now rewrite IH.
Qed.

Lemma length_app (a b : string) :
  String.length (a ++ b) = (String.length a + String.length b)%nat.
Proof. induction a as [|c a IH]; simpl; [reflexivity|]. now rewrite IH. Qed.

Lemma pad_length (w : nat) (n : Z) : String.length (pad w n) = w.
Proof.
  revert n. induction w as [|w IH]; intros n; simpl; [reflexivity|].
  rewrite length_app, IH. simpl. lia.
Qed.

Lemma char_of_digit_cases (d : Z) :
  In (char_of_digit d)
     ["0"; "1"; "2"; "3"; "4"; "5"; "6"; "7"; "8"; "9"]%char.
Proof.
  unfold char_of_digit.
  assert (0 <= d mod 10 < 10) as H by (apply Z.mod_pos_bound; lia).
  assert (d mod 10 = 0 \/ d mod 10 = 1 \/ d mod 10 = 2 \/ d mod 10 = 3 \/ d mod 10 = 4 \/
          d mod 10 = 5 \/ d mod 10 = 6 \/ d mod 10 = 7 \/ d mod 10 = 8 \/ d mod 10 = 9)
    as C by lia.
  repeat (destruct C as [C|C]; [rewrite C; simpl; tauto|]).
  rewrite C. simpl. tauto.
Qed.

(** Digits hold neither an underscore nor a slash. *)
Lemma pad_free (c : ascii) (w : nat) (n : Z) :
  digit_of c = None -> free c (pad w n) = true.
Proof.
  intros Hc. revert n. induction w as [|w IH]; intros n; simpl; [reflexivity|].
  rewrite free_app, IH. unfold free. simpl.
  destruct (Ascii.eqb (char_of_digit n) c) eqn:E; [|reflexivity].
  apply Ascii.eqb_eq in E. subst c.
  pose proof (char_of_digit_cases n) as H. simpl in H.
  repeat (destruct H as [H|H]; [rewrite <- H in Hc; discriminate|]). contradiction.
Qed.

Lemma last_app_cons {A} (l1 : list A) (x : A) (l2 : list A) (d : A) :
  last (l1 ++ x :: l2)%list d = last (x :: l2) d.
Proof.
  induction l1 as [|y l1 IH]; [reflexivity|].
  change ((y :: l1) ++ x :: l2)%list with (y :: (l1 ++ x :: l2))%list.
  destruct (l1 ++ x :: l2)%list eqn:E; [destruct l1; discriminate|]. exact IH.
Qed.

Lemma basename_app (a b : string) : basename (a ++ String "/" b) = basename b.
Proof.
  unfold basename. rewrite split_app.
  pose proof (split_nonempty "/" b) as Hne.
  destruct (split "/" b) as [|p ps]; [congruence|]. apply last_app_cons.
Qed.

Lemma basename_free (s : string) : free "/" s = true -> basename s = s.
Proof. intros H. unfold basename. now rewrite split_free. Qed.

Lemma ends_with_slash (a : string) :
  String.eqb (String.substring (Nat.pred (String.length a)) 1 a) "/" = true ->
  exists a', a = a' ++ "/".
Proof.
  induction a as [|c a IH]; [discriminate|].
  destruct a as [|c' a].
  - cbn [String.length Nat.pred String.substring]. intros H.
    apply String.eqb_eq in H. injection H as ->. now exists "".
  - intros H. destruct IH as [a' Ha'].
    + exact H.
    + exists (String c a'). simpl. now rewrite Ha'.
Qed.

(** The base name of a file put into a folder is its name. *)
Lemma basename_path_join (folder name : string) :
  free "/" name = true -> basename (path_join folder name) = name.
Proof.
  intros Hn. unfold path_join.
  destruct (startswith "/" name) eqn:E1; [now apply basename_free|].
  destruct (String.eqb folder "") eqn:E2; [now apply basename_free|].
  destruct (String.eqb (String.substring (Nat.pred (String.length folder)) 1 folder) "/") eqn:E3.
  - destruct (ends_with_slash _ E3) as [a' ->].
    replace ((a' ++ "/") ++ name) with (a' ++ String "/" name).
    + rewrite basename_app. now apply basename_free.
    + clear. induction a' as [|c a' IH]; simpl; [reflexivity|]. now rewrite IH.
  - change (folder ++ "/" ++ name) with (folder ++ String "/" name).
    rewrite basename_app. now apply basename_free.
Qed.

End TextFacts.

(** ** File names and groups *)

Module NameFacts.
Import Py Preprocessing TextFacts.

Lemma getitem_before_last {A} (l : list A) (a b : A) :
  getitem (l ++ [a; b])%list (-2) = Some a.
Proof.
  unfold getitem, norm_index. rewrite List.length_app. cbn [List.length].
  replace (-2 <? 0) with true by reflexivity.
  replace (-2 + Z.of_nat (List.length l + 2)) with (Z.of_nat (List.length l)) by lia.
  replace (Z.of_nat (List.length l) <? 0) with false by (symmetry; apply Z.ltb_ge; lia).
  rewrite Nat2Z.id, nth_error_app2 by lia. now rewrite Nat.sub_diag.
Qed.

Lemma slice_middle {A} (x y : A) (ps : list A) (a b : A) :
  slice (x :: y :: ps ++ [a; b])%list 2 (-2) = ps.
Proof.
  unfold slice, norm_index. cbn [List.length]. rewrite List.length_app. cbn [List.length].
  replace (2 <? 0) with false by reflexivity.
  replace (-2 <? 0) with true by reflexivity.
  set (n := List.length ps).
  replace (Z.max 0 (Z.min (Z.of_nat (S (S (n + 2)))) 2)) with 2 by lia.
  replace (Z.max 0 (Z.min (Z.of_nat (S (S (n + 2)))) (-2 + Z.of_nat (S (S (n + 2))))))
    with (Z.of_nat n + 2) by lia.
  replace (Z.of_nat n + 2 - 2) with (Z.of_nat n) by lia.
  rewrite Nat2Z.id. change (Z.to_nat 2) with 2%nat. cbn [skipn].
  subst n. rewrite firstn_app, Nat.sub_diag, firstn_all. simpl. apply app_nil_r.
Qed.

(** The key of a name by its parts: the first part, the second part, the
    parts from the third to the third from the end, joined again, and the
    first four characters of the part before the last. *)
Lemma file_key_of_parts (filename c z : string) (ps : list string) (st e : string) :
  split "_" filename = (c :: z :: ps ++ [st; e])%list ->
  ps <> [] ->
  file_key filename = Some (c, z, join "_" ps, take 4 st).
Proof.
  intros H Hps. unfold file_key. rewrite H.
  replace (5 <=? List.length (c :: z :: ps ++ [st; e]))%nat with true.
  - change (c :: z :: ps ++ [st; e])%list with ((c :: z :: ps) ++ [st; e])%list at 3.
    rewrite getitem_before_last. rewrite slice_middle. reflexivity.
  - symmetry. apply Nat.leb_le. cbn [List.length]. rewrite List.length_app. cbn [List.length].
    destruct ps; [congruence|simpl; lia].
Qed.

Lemma file_key_short (filename : string) :
  (List.length (split "_" filename) < 5)%nat -> file_key filename = None.
Proof.
  intros H. unfold file_key.
  replace (5 <=? List.length (split "_" filename))%nat with false; [reflexivity|].
  symmetry. apply Nat.leb_gt. exact H.
Qed.

End NameFacts.

Module GroupFacts.
Import Py Preprocessing.

Lemma group_key_eqb_eq (a b : group_key) : group_key_eqb a b = true <-> a = b.
Proof.
  destruct a as [[[c1 z1] d1] y1], b as [[[c2 z2] d2] y2]. unfold group_key_eqb.
  rewrite !andb_true_iff, !String.eqb_eq. split.
  - intros [[[-> ->] ->] ->]. reflexivity.
  - intros H. injection H as -> -> -> ->. auto.
Qed.

Lemma group_key_eqb_refl (a : group_key) : group_key_eqb a a = true.
Proof. now apply group_key_eqb_eq. Qed.

(** Has the file [f] the key [k]? *)
Definition has_key (k : group_key) (f : string) : bool :=
  match file_key (basename f) with
  | Some k' => group_key_eqb k' k
  | None => false
  end.

(** The files of [files] with the key [k], in their order. *)
Definition members (k : group_key) (files : list string) : list string :=
  filter (has_key k) files.

(** [file_groups.get(k)]. *)
Fixpoint lookup (k : group_key) (groups : list (group_key * list string))
  : option (list string) :=
  match groups with
  | [] => None
  | (k', fs) :: rest => if group_key_eqb k' k then Some fs else lookup k rest
  end.

Lemma lookup_setdefault_append (key k : group_key) (f : string)
    (groups : list (group_key * list string)) :
  lookup k (setdefault_append key f groups) =
  if group_key_eqb key k
  then Some (match lookup key groups with Some fs => fs ++ [f] | None => [f] end)%list
  else lookup k groups.
Proof.
  induction groups as [|[k0 fs0] groups IH]; simpl.
  - destruct (group_key_eqb key k); reflexivity.
  - destruct (group_key_eqb k0 key) eqn:E0; simpl.
    + apply group_key_eqb_eq in E0. subst k0.
      destruct (group_key_eqb key k); reflexivity.
    + rewrite IH. destruct (group_key_eqb k0 k) eqn:E1; [|reflexivity].
      apply group_key_eqb_eq in E1. subst k0.
      destruct (group_key_eqb key k) eqn:E2; [|reflexivity].
      apply group_key_eqb_eq in E2. subst k. now rewrite group_key_eqb_refl in E0.
Qed.

Lemma lookup_none (k : group_key) (groups : list (group_key * list string)) :
  lookup k groups = None -> ~ In k (List.map fst groups).
Proof.
  induction groups as [|[k0 fs0] groups IH]; simpl; [tauto|].
  destruct (group_key_eqb k0 k) eqn:E; [discriminate|].
  intros H [Hk|Hk]; [|now apply IH].
  subst k0. now rewrite group_key_eqb_refl in E.
Qed.

Lemma keys_setdefault_append (key : group_key) (f : string)
    (groups : list (group_key * list string)) :
  List.map fst (setdefault_append key f groups) =
  match lookup key groups with
  | Some _ => List.map fst groups
  | None => (List.map fst groups ++ [key])%list
  end.
Proof.
  induction groups as [|[k0 fs0] groups IH]; simpl; [reflexivity|].
  destruct (group_key_eqb k0 key) eqn:E; simpl; [reflexivity|].
  rewrite IH. destruct (lookup key groups); reflexivity.
Qed.

Lemma lookup_in (k : group_key) (fs : list string) (groups : list (group_key * list string)) :
  NoDup (List.map fst groups) -> (In (k, fs) groups <-> lookup k groups = Some fs).
Proof.
  induction groups as [|[k0 fs0] groups IH]; simpl; intros Hnd.
  - split; [tauto|discriminate].
  - inversion Hnd as [|? ? Hk0 Hnd']; subst.
    destruct (group_key_eqb k0 k) eqn:E.
    + apply group_key_eqb_eq in E. subst k0. split.
      * intros [H|H]; [congruence|].
        exfalso. apply Hk0. apply in_map_iff. now exists (k, fs).
      * intros H. left. congruence.
    + rewrite <- (IH Hnd'). split; [|tauto].
      intros [H|H]; [|assumption]. injection H as -> _.
      now rewrite group_key_eqb_refl in E.
Qed.

(** What the groups are once the files [seen] have been passed. *)
Definition grouped (groups : list (group_key * list string)) (seen : list string) : Prop :=
  NoDup (List.map fst groups) /\
  forall k, lookup k groups =
            match members k seen with
            | [] => None
            | fs => Some fs
            end.

Lemma grouped_step (groups : list (group_key * list string)) (seen : list string)
    (f : string) :
  grouped groups seen ->
  grouped (match file_key (basename f) with
           | Some key => setdefault_append key f groups
           | None => groups
           end) (seen ++ [f]).
Proof.
  intros [Hnd Hl]. unfold grouped, members in *.
  destruct (file_key (basename f)) as [key|] eqn:Ek.
  - split.
    + rewrite keys_setdefault_append.
      destruct (lookup key groups) eqn:E; [assumption|].
      apply NoDup_app; [assumption|repeat constructor; intros []|].
      intros x Hx [<-|[]]. now apply (lookup_none _ _ E).
    + intros k. rewrite lookup_setdefault_append, filter_app. simpl.
      unfold has_key at 2. rewrite Ek.
      destruct (group_key_eqb key k) eqn:E.
      * apply group_key_eqb_eq in E. subst k. rewrite Hl.
        destruct (filter (has_key key) seen); reflexivity.
      * rewrite app_nil_r. apply Hl.
  - split; [assumption|]. intros k. rewrite filter_app. simpl.
    unfold has_key at 2. rewrite Ek, app_nil_r. apply Hl.
Qed.

Lemma grouped_fold (files seen : list string) (groups : list (group_key * list string)) :
  grouped groups seen ->
  grouped (fold_left
             (fun file_groups filepath =>
                match file_key (basename filepath) with
                | Some key => setdefault_append key filepath file_groups
                | None => file_groups
                end) files groups) (seen ++ files).
Proof.
  revert seen groups. induction files as [|f files IH]; intros seen groups H; simpl.
  - now rewrite app_nil_r.
  - replace (seen ++ f :: files)%list with ((seen ++ [f]) ++ files)%list
      by (rewrite <- app_assoc; reflexivity).
    apply IH. now apply grouped_step.
Qed.

End GroupFacts.

(** ** Properties beyond the claims *)

(** X1. The first loop of the merge engine sorts the monthly files into
    groups by key: no key has two groups, the group of a key holds exactly
    the files with that key, in the order of the listing, and is never empty;
    a file whose name has fewer than five parts is in no group. *)
Theorem groups_partition_the_files (monthly_files : list string) :
  let file_groups := Preprocessing.group_files monthly_files in
  NoDup (List.map fst file_groups) /\
  (forall key files,
     In (key, files) file_groups <->
     files = GroupFacts.members key monthly_files /\ files <> []) /\
  (forall filepath key files,
     (List.length (Py.split "_" (Py.basename filepath)) < 5)%nat ->
     In (key, files) file_groups -> ~ In filepath files).
Proof.
  intros file_groups.
  destruct (GroupFacts.grouped_fold monthly_files [] []) as [Hnd Hl].
  { split; [constructor|reflexivity]. }
  simpl in Hnd, Hl. fold (Preprocessing.group_files monthly_files) in Hnd, Hl.
  fold file_groups in Hnd, Hl.
  assert (forall key files,
            In (key, files) file_groups <->
            files = GroupFacts.members key monthly_files /\ files <> []) as Hin.
  { intros key files. rewrite (GroupFacts.lookup_in _ _ _ Hnd), Hl.
    destruct (GroupFacts.members key monthly_files) as [|f fs]; split.
    - discriminate.
    - intros [-> H]. congruence.
    - intros H. injection H as <-. split; [reflexivity|discriminate].
    - intros [-> _]. reflexivity. }
  split; [exact Hnd|]. split; [exact Hin|].
  intros filepath key files Hshort Hg Hf.
  apply Hin in Hg. destruct Hg as [-> _].
  apply filter_In in Hf. destruct Hf as [_ Hf].
  unfold GroupFacts.has_key in Hf.
  now rewrite (NameFacts.file_key_short _ Hshort) in Hf.
Qed.

(** The key of a name written with a label between country and dataset. *)
Lemma file_key_of_written_name
    (output_folder country_name zone_label dataset_key : string)
    (start_date end_date : Datetime.datetime) :
  TextFacts.free "_" country_name = true ->
  TextFacts.free "_" zone_label = true ->
  TextFacts.free "/" country_name = true ->
  TextFacts.free "/" zone_label = true ->
  TextFacts.free "/" dataset_key = true ->
  Preprocessing.file_key
    (Py.basename
       (Py.path_join output_folder
          (country_name ++ "_" ++ zone_label ++ "_" ++ dataset_key ++ "_"
           ++ Datetime.strftime_Ymd start_date ++ "_"
           ++ Datetime.strftime_Ymd end_date ++ ".csv")))
  = Some (country_name, zone_label, dataset_key, Py.pad 4 (Datetime.year start_date)).
Proof.
  intros Hc Hz Hc' Hz' Hd'.
  assert (forall c dt, Py.digit_of c = None ->
            TextFacts.free c (Datetime.strftime_Ymd dt) = true) as Hdate.
  { intros c dt Hcd. unfold Datetime.strftime_Ymd.
    now rewrite !TextFacts.free_app, !TextFacts.pad_free. }
  cbn [append].
  rewrite TextFacts.basename_path_join.
  2: { repeat (rewrite ?TextFacts.free_app, ?TextFacts.free_cons).
       rewrite Hc', Hz', Hd', !Hdate by reflexivity. reflexivity. }
  rewrite (NameFacts.file_key_of_parts _ country_name zone_label
             (Py.split "_" dataset_key) (Datetime.strftime_Ymd start_date)
             (Datetime.strftime_Ymd end_date ++ ".csv")).
  - rewrite TextFacts.join_split. reflexivity.
  - rewrite !TextFacts.split_app.
    rewrite (TextFacts.split_free _ _ Hc), (TextFacts.split_free _ _ Hz).
    rewrite (TextFacts.split_free "_" (Datetime.strftime_Ymd start_date))
      by (apply Hdate; reflexivity).
    rewrite (TextFacts.split_free "_" (Datetime.strftime_Ymd end_date ++ ".csv")).
    + reflexivity.
    + rewrite TextFacts.free_app, Hdate by reflexivity. reflexivity.
  - apply TextFacts.split_nonempty.
Qed.

(** X3. The name the fetch driver gives to the table of any other unit has
    no zone label, and the merge engine reads it one part off: a dataset key
    without an underscore leaves four parts, and the file is passed over; a
    dataset key of two or more words gives its first word for the bidding
    zone and the rest for the dataset. *)
Theorem country_file_name_is_read_one_part_off
    (output_folder country_name : string) (start_date end_date : Datetime.datetime) :
  TextFacts.free "_" country_name = true ->
  TextFacts.free "/" country_name = true ->
  (forall dataset_key,
     TextFacts.free "_" dataset_key = true ->
     TextFacts.free "/" dataset_key = true ->
     Preprocessing.file_key
       (Py.basename
          (Py.path_join output_folder
             (country_name ++ "_" ++ dataset_key ++ "_"
              ++ Datetime.strftime_Ymd start_date ++ "_"
              ++ Datetime.strftime_Ymd end_date ++ ".csv")))
     = None) /\
  (forall first_word rest,
     TextFacts.free "_" first_word = true ->
     TextFacts.free "/" first_word = true ->
     TextFacts.free "/" rest = true ->
     Preprocessing.file_key
       (Py.basename
          (Py.path_join output_folder
             (country_name ++ "_" ++ (first_word ++ "_" ++ rest) ++ "_"
              ++ Datetime.strftime_Ymd start_date ++ "_"
              ++ Datetime.strftime_Ymd end_date ++ ".csv")))
     = Some (country_name, first_word, rest, Py.pad 4 (Datetime.year start_date))).
Proof.
  intros Hc Hc'.
  assert (forall c dt, Py.digit_of c = None ->
            TextFacts.free c (Datetime.strftime_Ymd dt) = true) as Hdate.
  { intros c dt Hcd. unfold Datetime.strftime_Ymd.
    now rewrite !TextFacts.free_app, !TextFacts.pad_free. }
  split.
  - intros dataset_key Hd Hd'. cbn [append].
    rewrite TextFacts.basename_path_join.
    2: { repeat (rewrite ?TextFacts.free_app, ?TextFacts.free_cons).
         rewrite Hc', Hd', !Hdate by reflexivity. reflexivity. }
    apply NameFacts.file_key_short.
    rewrite !TextFacts.split_app.
    rewrite (TextFacts.split_free _ _ Hc), (TextFacts.split_free _ _ Hd).
    rewrite (TextFacts.split_free "_" (Datetime.strftime_Ymd start_date))
      by (apply Hdate; reflexivity).
    rewrite (TextFacts.split_free "_" (Datetime.strftime_Ymd end_date ++ ".csv")).
    + simpl. lia.
    + rewrite TextFacts.free_app, Hdate by reflexivity. reflexivity.
  - intros first_word rest Hf Hf' Hr'.
    pose proof (file_key_of_written_name output_folder country_name first_word rest
                  start_date end_date Hc Hf Hc' Hf' Hr') as H.
    rewrite <- H. rewrite (TextFacts.append_assoc first_word). reflexivity.
Qed.

(** X2. The name the fetch driver gives to the table of a price unit is read
    back by the merge engine as it was written: with a country name and a
    zone label that hold no underscore, the key of the file is the country,
    the zone label, the dataset key (underscores and all) and the year of the
    start date, whatever the folder. *)
Theorem zone_file_name_is_read_back
    (output_folder country_name zone_label dataset_key : string)
    (start_date end_date : Datetime.datetime) :
  TextFacts.free "_" country_name = true ->
  TextFacts.free "_" zone_label = true ->
  TextFacts.free "/" country_name = true ->
  TextFacts.free "/" zone_label = true ->
  TextFacts.free "/" dataset_key = true ->
  Preprocessing.file_key
    (Py.basename
       (Py.path_join output_folder
          (country_name ++ "_" ++ zone_label ++ "_" ++ dataset_key ++ "_"
           ++ Datetime.strftime_Ymd start_date ++ "_"
           ++ Datetime.strftime_Ymd end_date ++ ".csv")))
  = Some (country_name, zone_label, dataset_key, Py.pad 4 (Datetime.year start_date)).
Proof.
  intros Hc Hz Hc' Hz' Hd'.
  now apply file_key_of_written_name.
Qed.

(** Sweden's first price zone, January 2024. *)
Lemma zone_file_name_is_read_back_witness :
  Preprocessing.file_key
    (Py.basename "output/entsoe/Sweden_SE1_day_ahead_prices_20240101_20240201.csv")
  = Some ("Sweden", "SE1", "day_ahead_prices", "2024").
Proof.
  exact (zone_file_name_is_read_back "output/entsoe" "Sweden" "SE1" "day_ahead_prices"
           Examples.january Examples.february eq_refl eq_refl eq_refl eq_refl eq_refl).
Defined.

(** Sweden's load, January 2024, and a dataset key of one word. *)
Lemma country_file_name_is_read_one_part_off_witness :
  Preprocessing.file_key (Py.basename "output/entsoe/Sweden_load_20240101_20240201.csv")
    = None /\
  Preprocessing.file_key
    (Py.basename "output/entsoe/Sweden_actual_load_20240101_20240201.csv")
    = Some ("Sweden", "actual", "load", "2024").
Proof.
  destruct (country_file_name_is_read_one_part_off "output/entsoe" "Sweden"
              Examples.january Examples.february eq_refl eq_refl) as [H1 H2].
  split.
  - exact (H1 "load" eq_refl eq_refl).
  - exact (H2 "actual" "load" eq_refl eq_refl eq_refl).
Defined.

(** X4. The query builder. For every configured dataset the request carries
    the token, the document type, the period as the two formatted dates and
    the process type, in that order, and then the area code: under
    in_Domain and out_Domain alike for the price dataset, under the one
    domain field of the configuration for any other. *)
Theorem query_parameters
    (API_TOKEN area_code dataset_key : string) (dataset : Retrieval.dataset_config)
    (start_date end_date : Datetime.datetime) :
  Py.dict_get dataset_key Retrieval.DATASETS = Some dataset ->
  Retrieval.build_params API_TOKEN dataset area_code start_date end_date =
    ([ ("securityToken", API_TOKEN);
       ("documentType", Retrieval.documentType dataset);
       ("periodStart", Retrieval.format_date start_date);
       ("periodEnd", Retrieval.format_date end_date);
       ("processType", Retrieval.processType dataset) ] ++
     match Retrieval.domain dataset with
     | Retrieval.Domains _ => [("in_Domain", area_code); ("out_Domain", area_code)]
     | Retrieval.Domain domain_field => [(domain_field, area_code)]
     end)%list /\
  (dataset_key = "day_ahead_prices" <->
   Retrieval.domain dataset = Retrieval.Domains ["in_Domain"; "out_Domain"]).
Proof.
  unfold Retrieval.DATASETS. cbn [Py.dict_get].
  destruct (String.eqb "actual_load" dataset_key) eqn:E1.
  { apply String.eqb_eq in E1. subst. intros H. injection H as <-.
    split; [reflexivity|]. split; discriminate. }
  destruct (String.eqb "actual_generation" dataset_key) eqn:E2.
  { apply String.eqb_eq in E2. subst. intros H. injection H as <-.
    split; [reflexivity|]. split; discriminate. }
  destruct (String.eqb "day_ahead_prices" dataset_key) eqn:E3.
  { apply String.eqb_eq in E3. subst. intros H. injection H as <-.
    split; [reflexivity|]. split; reflexivity. }
  destruct (String.eqb "installed_capacity" dataset_key) eqn:E4.
  { apply String.eqb_eq in E4. subst. intros H. injection H as <-.
    split; [reflexivity|]. split; discriminate. }
  discriminate.
Qed.

(** The price request for zone SE1. *)
Lemma query_parameters_witness :
  Retrieval.build_params "token"
    {| Retrieval.documentType := "A44"; Retrieval.processType := "A01";
       Retrieval.domain := Retrieval.Domains ["in_Domain"; "out_Domain"];
       Retrieval.unit := "EUR/MWh" |}
    "10Y1001A1001A44P" Examples.january Examples.february
  = [ ("securityToken", "token"); ("documentType", "A44");
      ("periodStart", "202401010000"); ("periodEnd", "202402010000");
      ("processType", "A01");
      ("in_Domain", "10Y1001A1001A44P"); ("out_Domain", "10Y1001A1001A44P") ].
Proof.
  exact (proj1 (query_parameters "token" "10Y1001A1001A44P" "day_ahead_prices" _
                  Examples.january Examples.february eq_refl)).
Defined.

(** X5. A dataset key that is not configured is a KeyError of the fetch
    before anything is done: no request is sent, nothing is logged by the
    fetch and no file is written. A unit of the driver with such a key has
    logged its start line and then raises the same error, which the driver
    does not catch. *)
Theorem unknown_dataset_key_is_a_key_error
    (API_TOKEN : string)
    (requests_get : string -> list (string * string) -> Py.result Retrieval.response)
    (now : Datetime.datetime) (country_name area_code dataset_key : string)
    (start_date end_date : Datetime.datetime) (output_folder : string) (s : Run.state) :
  Py.dict_get dataset_key Retrieval.DATASETS = None ->
  Retrieval.retrieve_entsoe_data API_TOKEN requests_get area_code dataset_key
    start_date end_date s = (inl Py.KeyError, s) /\
  let run := Retrieval.retrieve_entsoe_datasets API_TOKEN requests_get now
               [(country_name, area_code)] [dataset_key] start_date end_date
               output_folder s in
  fst run = inl Py.KeyError /\
  Run.requests (snd run) = Run.requests s /\
  Run.files (snd run) = Run.files s.
Proof.
  intros Hd.
  assert (forall s', Retrieval.retrieve_entsoe_data API_TOKEN requests_get area_code
                       dataset_key start_date end_date s' = (inl Py.KeyError, s')) as Hr.
  { intros s'. unfold Retrieval.retrieve_entsoe_data, Run.mbind, Run.lift.
    now rewrite Hd. }
  split; [apply Hr|].
  assert (String.eqb dataset_key "day_ahead_prices" = false) as Hk.
  { destruct (String.eqb dataset_key "day_ahead_prices") eqn:E; [|reflexivity].
    apply String.eqb_eq in E. subst. discriminate Hd. }
  cbv zeta. unfold Retrieval.retrieve_entsoe_datasets. cbn [Run.for_each].
  rewrite Hk. unfold Retrieval.country_unit, Run.mbind, Run.logging.
  rewrite Hr. cbn [fst snd Run.requests Run.files]. auto.
Qed.

(** A forecast dataset that the table does not hold. *)
Lemma unknown_dataset_key_is_a_key_error_witness :
  fst (Retrieval.retrieve_entsoe_datasets "token" Examples.service Examples.clock
         [("B", "b")] ["load_forecast"] Examples.january Examples.february
         "output/entsoe" Run.initial) = inl Py.KeyError.
Proof.
  exact (proj1 (proj2 (unknown_dataset_key_is_a_key_error "token" Examples.service
                         Examples.clock "B" "b" "load_forecast" Examples.january
                         Examples.february "output/entsoe" Run.initial eq_refl))).
Defined.

(** X6. The production type of a series. For the price dataset it is the
    fixed label, whatever the series holds. For any other dataset a code of
    the table gives its label, a code that is not in the table is kept as it
    is, and a series without MktPSRType, or without psrType in it, gets the
    dataset key in title case. Nothing of this is an error; an MktPSRType
    element that is empty is one (AttributeError), and so is a psrType that
    is not text (TypeError). *)
Theorem production_type_fallbacks :
  (forall series,
     Retrieval.production_type_of "day_ahead_prices" series = inr "Day-ahead Price") /\
  (forall dataset_key fields mkt code,
     String.eqb dataset_key "day_ahead_prices" = false ->
     Py.dict_get "MktPSRType" fields = Some (Retrieval.XElem mkt) ->
     Py.dict_get "psrType" mkt = Some (Retrieval.XText code) ->
     (forall label, Py.dict_get code Retrieval.PSR_TYPE_MAP = Some label ->
        Retrieval.production_type_of dataset_key (Retrieval.XElem fields) = inr label) /\
     (Py.dict_get code Retrieval.PSR_TYPE_MAP = None -> code <> "" ->
        Retrieval.production_type_of dataset_key (Retrieval.XElem fields) = inr code)) /\
  (forall dataset_key fields,
     String.eqb dataset_key "day_ahead_prices" = false ->
     Py.dict_get "MktPSRType" fields = None \/
     (exists mkt, Py.dict_get "MktPSRType" fields = Some (Retrieval.XElem mkt) /\
                  Py.dict_get "psrType" mkt = None) ->
     Retrieval.production_type_of dataset_key (Retrieval.XElem fields)
       = inr (Py.title dataset_key)) /\
  (forall dataset_key fields,
     String.eqb dataset_key "day_ahead_prices" = false ->
     (Py.dict_get "MktPSRType" fields = Some Retrieval.XNone ->
      Retrieval.production_type_of dataset_key (Retrieval.XElem fields)
        = inl Py.AttributeError) /\
     (forall mkt nested,
        Py.dict_get "MktPSRType" fields = Some (Retrieval.XElem mkt) ->
        Py.dict_get "psrType" mkt = Some (Retrieval.XElem nested) ->
        Retrieval.production_type_of dataset_key (Retrieval.XElem fields)
          = inl Py.TypeError)).
Proof.
  split; [reflexivity|]. split; [|split].
  - intros dataset_key fields mkt code Hk Hm Hp.
    unfold Retrieval.production_type_of. rewrite Hk. simpl. rewrite Hm. simpl. rewrite Hp.
    split.
    + intros label Hl. now rewrite Hl.
    + intros Hl Hc. rewrite Hl. apply String.eqb_neq in Hc. now rewrite Hc.
  - intros dataset_key fields Hk [Hm|[mkt [Hm Hp]]];
      unfold Retrieval.production_type_of; rewrite Hk; simpl; rewrite Hm; simpl;
      [reflexivity|now rewrite Hp].
  - intros dataset_key fields Hk. split.
    + intros Hm. unfold Retrieval.production_type_of. rewrite Hk. simpl. now rewrite Hm.
    + intros mkt nested Hm Hp. unfold Retrieval.production_type_of.
      rewrite Hk. simpl. rewrite Hm. simpl. now rewrite Hp.
Qed.

(** A generation series with a code that the table does not hold, and one
    with no code at all. *)
Lemma production_type_fallbacks_witness :
  Retrieval.production_type_of "actual_generation"
    (Retrieval.XElem [("MktPSRType", Retrieval.XElem [("psrType", Retrieval.XText "B25")])])
    = inr "B25" /\
  Retrieval.production_type_of "actual_load" (Retrieval.XElem [("mRID", Retrieval.XText "1")])
    = inr "Actual_Load".
Proof.
  destruct production_type_fallbacks as [_ [H2 [H3 _]]]. split.
  - refine (proj2 (H2 "actual_generation"
                     [("MktPSRType", Retrieval.XElem [("psrType", Retrieval.XText "B25")])]
                     [("psrType", Retrieval.XText "B25")] "B25"
                     eq_refl eq_refl eq_refl) eq_refl _). discriminate.
  - refine (H3 "actual_load" [("mRID", Retrieval.XText "1")] eq_refl _). left. reflexivity.
Defined.

(** X7. The value of a point. With a position that is a number and a start
    that can be moved there, a point with a quantity gives a record with
    that quantity, also when it has a price.amount as well; a point with
    only a price.amount gives a record with that amount; a point with
    neither is left out, without an error. When reading the quantity as a
    number raises, the point raises the same: the price.amount beside it is
    not tried. *)
Theorem point_value_selection
    (area_code dataset_key prod_type unit : string) (interval_start ts : Datetime.datetime)
    (step position : Z) (fields : list (string * Retrieval.xml)) :
  Retrieval.position_of (Retrieval.XElem fields) = inr position ->
  Retrieval.point_timestamp interval_start step position = inr ts ->
  let record v :=
    Frame.mkRow (Datetime.isoformat ts) area_code dataset_key prod_type v unit in
  let run := Retrieval.point_record area_code dataset_key prod_type unit interval_start step
               (Retrieval.XElem fields) in
  (forall q v, Py.dict_get "quantity" fields = Some (Retrieval.XText q) ->
               Py.float_of_string q = inr v -> run = inr (Some (record v))) /\
  (forall q e, Py.dict_get "quantity" fields = Some (Retrieval.XText q) ->
               Py.float_of_string q = inl e -> run = inl e) /\
  (forall a v, Py.dict_get "quantity" fields = None ->
               Py.dict_get "price.amount" fields = Some (Retrieval.XText a) ->
               Py.float_of_string a = inr v -> run = inr (Some (record v))) /\
  (Py.dict_get "quantity" fields = None -> Py.dict_get "price.amount" fields = None ->
   run = inr None).
Proof.
  intros Hp Ht record run. subst run record.
  unfold Retrieval.point_record. rewrite Hp. cbn [Py.bind]. rewrite Ht. cbn [Py.bind].
  repeat split.
  - intros q v Hq Hv. simpl. rewrite Hq. simpl. now rewrite Hv.
  - intros q e Hq Hv. simpl. rewrite Hq. simpl. now rewrite Hv.
  - intros a v Hq Ha Hv. simpl. rewrite Hq, Ha. simpl. now rewrite Hv.
  - intros Hq Ha. simpl. now rewrite Hq, Ha.
Qed.

(** A point with both fields, and a point with a position only. *)
Lemma point_value_selection_witness :
  Retrieval.point_record "10YDE" "day_ahead_prices" "Day-ahead Price" "EUR/MWh"
    Examples.january 60
    (Retrieval.XElem [("position", Retrieval.XText "2"); ("price.amount", Retrieval.XText "40.5");
                      ("quantity", Retrieval.XText "7")])
  = inr (Some (Frame.mkRow "2024-01-01T01:00:00+00:00" "10YDE" "day_ahead_prices"
                 "Day-ahead Price" {| Py.mantissa := 7; Py.places := 0 |} "EUR/MWh")) /\
  Retrieval.point_record "10YDE" "day_ahead_prices" "Day-ahead Price" "EUR/MWh"
    Examples.january 60 (Retrieval.XElem [("position", Retrieval.XText "2")])
  = inr None.
Proof.
  split.
  - exact (proj1 (point_value_selection "10YDE" "day_ahead_prices" "Day-ahead Price"
                    "EUR/MWh" Examples.january (Datetime.utc 2024 1 1 1 0) 60 2
                    [("position", Retrieval.XText "2");
                     ("price.amount", Retrieval.XText "40.5");
                     ("quantity", Retrieval.XText "7")] eq_refl eq_refl)
             "7" _ eq_refl eq_refl).
  - exact (proj2 (proj2 (proj2
             (point_value_selection "10YDE" "day_ahead_prices" "Day-ahead Price"
                "EUR/MWh" Examples.january (Datetime.utc 2024 1 1 1 0) 60 2
                [("position", Retrieval.XText "2")] eq_refl eq_refl))) eq_refl eq_refl).
Defined.

(** ** What the rows of a fetched table carry *)

Module RowFacts.
Import Py Retrieval.

(** The columns of a row other than its timestamp and value. *)
Definition labelled (area_code dataset_key prod_type unit : string) (r : Frame.Row string)
  : Prop :=
  Frame.area_code r = area_code /\ Frame.dataset r = dataset_key /\
  Frame.production_type r = prod_type /\ Frame.unit r = unit.

Lemma point_record_labelled (area_code dataset_key prod_type unit : string)
    (interval_start : Datetime.datetime) (step : Z) (point : xml) (r : Frame.Row string) :
  point_record area_code dataset_key prod_type unit interval_start step point = inr (Some r) ->
  labelled area_code dataset_key prod_type unit r.
Proof.
  unfold point_record, bind. intros H.
  repeat match type of H with
         | context [match ?x with _ => _ end] => destruct x; try discriminate
         end;
    unfold ret in H; injection H as <-; repeat split.
Qed.

Lemma period_records_labelled (area_code dataset_key prod_type unit : string)
    (period : xml) (rows : list (Frame.Row string)) :
  period_records area_code dataset_key prod_type unit period = inr rows ->
  Forall (labelled area_code dataset_key prod_type unit) rows.
Proof.
  unfold period_records, bind. intros H.
  repeat match type of H with
         | context [match ?x with _ => _ end] => destruct x eqn:?; try discriminate
         end.
  injection H as <-. apply Forall_forall. intros r Hr.
  apply ParserFacts.somes_in in Hr.
  match goal with
  | Em : map_r _ _ = inr _ |- _ =>
      destruct (proj2 (PreprocessingFacts.map_r_in _ _ _ Em) _ Hr) as [point [_ Hp]]
  end.
  eapply point_record_labelled. exact Hp.
Qed.

Lemma labels_not_empty (code label : string) :
  dict_get code PSR_TYPE_MAP = Some label -> label <> "".
Proof.
  unfold PSR_TYPE_MAP. cbn [dict_get].
  repeat match goal with
         | |- context [if ?c then _ else _] =>
             destruct c; [intros H; injection H as <-; discriminate|]
         end.
  discriminate.
Qed.

(** The production type of a series of a configured dataset is not empty, and
    it is the fixed label for prices. *)
Lemma production_type_not_empty (dataset_key : string) (dataset : dataset_config)
    (series : xml) (prod_type : string) :
  dict_get dataset_key DATASETS = Some dataset ->
  production_type_of dataset_key series = inr prod_type ->
  prod_type <> "" /\
  (dataset_key = "day_ahead_prices" -> prod_type = "Day-ahead Price").
Proof.
  intros Hd. unfold production_type_of.
  destruct (String.eqb dataset_key "day_ahead_prices") eqn:Ek.
  { intros H. injection H as <-. split; [discriminate|reflexivity]. }
  assert (title dataset_key <> "") as Ht.
  { revert Hd. unfold DATASETS. cbn [dict_get].
    repeat match goal with
           | |- context [if String.eqb ?k dataset_key then _ else _] =>
               let E := fresh in
               destruct (String.eqb k dataset_key) eqn:E;
               [apply String.eqb_eq in E; subst; discriminate|]
           end.
    discriminate. }
  unfold bind, get.
  destruct series as [| |fields|]; try discriminate.
  destruct (match dict_get "MktPSRType" fields with Some v => v | None => XElem [] end)
    as [| |mkt|]; try discriminate.
  unfold ret.
  assert (dataset_key <> "day_ahead_prices") as Hnp
    by (intros ->; discriminate).
  destruct (match dict_get "psrType" mkt with Some v => v | None => XNone end)
    as [|code| |]; try discriminate.
  - intros H. injection H as <-. split; [assumption|contradiction].
  - destruct (dict_get code PSR_TYPE_MAP) as [label|] eqn:El;
      [|destruct (String.eqb code "") eqn:Ec];
      intros H; injection H as <-; (split; [|contradiction]).
    + exact (labels_not_empty _ _ El).
    + assumption.
    + now apply String.eqb_neq.
Qed.

Lemma series_records_labelled (area_code dataset_key : string) (dataset : dataset_config)
    (series : xml) (rows : list (Frame.Row string)) :
  dict_get dataset_key DATASETS = Some dataset ->
  series_records area_code dataset_key series = inr rows ->
  Forall (fun r => Frame.area_code r = area_code /\ Frame.dataset r = dataset_key /\
                   Frame.unit r = unit dataset /\ Frame.production_type r <> "" /\
                   (dataset_key = "day_ahead_prices" ->
                    Frame.production_type r = "Day-ahead Price")) rows.
Proof.
  intros Hd. unfold series_records, bind.
  destruct (production_type_of dataset_key series) as [e|prod_type] eqn:Ep; [discriminate|].
  destruct (subscript series "Period") as [e|periods]; [discriminate|].
  destruct (map_r _ (as_list periods)) as [e|records] eqn:Em; [discriminate|].
  intros H. injection H as <-.
  destruct (production_type_not_empty _ _ _ _ Hd Ep) as [Hne Hprice].
  assert ((if String.eqb dataset_key "day_ahead_prices" then "EUR/MWh" else "MW")
          = unit dataset) as Hu.
  { revert Hd. unfold DATASETS. cbn [dict_get].
    repeat match goal with
           | |- context [if String.eqb ?k dataset_key then _ else _] =>
               let E := fresh in
               destruct (String.eqb k dataset_key) eqn:E;
               [apply String.eqb_eq in E; subst; intros Hx; injection Hx as <-; reflexivity|]
           end.
    discriminate. }
  apply Forall_forall. intros r Hr. apply in_concat in Hr. destruct Hr as [rows [Hrows Hr]].
  destruct (proj2 (PreprocessingFacts.map_r_in _ _ _ Em) _ Hrows) as [period [_ Hper]].
  apply period_records_labelled in Hper. rewrite Forall_forall in Hper.
  destruct (Hper r Hr) as [H1 [H2 [H3 H4]]].
  rewrite H1, H2, H3, H4, <- Hu. auto.
Qed.

End RowFacts.

(** What a returned table was assembled from. *)
Module FetchFacts.

Lemma fetched_inv (API_TOKEN : string)
    (requests_get : string -> list (string * string) -> Py.result Retrieval.response)
    (area_code dataset_key : string) (start_date end_date : Datetime.datetime)
    (t : list (Frame.Row string)) :
  Retrieval.fetched API_TOKEN requests_get start_date end_date (area_code, dataset_key)
    = inr (Some t) ->
  exists dataset records,
    Py.dict_get dataset_key Retrieval.DATASETS = Some dataset /\
    (exists timeseries,
       Py.map_r (Retrieval.series_records area_code dataset_key)
         (Retrieval.as_list timeseries) = inr records) /\
    List.concat records <> [] /\
    t = Frame.sort_dedup Frame.text_leb Frame.text_eqb (List.concat records).
Proof.
  unfold Retrieval.fetched, Retrieval.retrieve_entsoe_data. RetrievalFacts.run.
  destruct (Py.dict_get dataset_key Retrieval.DATASETS) as [dataset|] eqn:Hd;
    [|discriminate].
  cbn [Py.of_option fst snd].
  destruct (requests_get _ _) as [e|response]; [discriminate|].
  cbn [fst snd]. destruct (negb _); [discriminate|].
  destruct (Retrieval.document response) as [e|data_dict]; [discriminate|].
  cbn [fst snd].
  destruct (Retrieval.no_timeseries _) as [e|[|]]; try discriminate.
  cbn [fst snd].
  destruct (Retrieval.subscript _ _) as [e|timeseries]; [discriminate|].
  cbn [fst snd].
  destruct (Py.map_r _ _) as [e|records] eqn:Hrec; [discriminate|].
  cbn [fst snd]. unfold Retrieval.assemble.
  destruct (List.concat records) as [|r0 rs] eqn:Ec; [discriminate|].
  cbn [Py.ret fst snd]. intros Ht.
  assert (t = Frame.sort_dedup Frame.text_leb Frame.text_eqb (r0 :: rs)) as ->
    by congruence.
  exists dataset, records. split; [reflexivity|]. split; [eauto|].
  split; [rewrite Ec; discriminate|rewrite Ec; reflexivity].
Qed.

End FetchFacts.

(** X8. A table that a fetch returns carries, in every row, the area code
    and the dataset key of the request and the unit the dataset is
    configured with; the production type of a row is never empty, and it is
    the one fixed label in a table of prices, where a key of the table is
    told by the timestamp alone. *)
Theorem rows_carry_the_request
    (API_TOKEN : string)
    (requests_get : string -> list (string * string) -> Py.result Retrieval.response)
    (area_code dataset_key : string) (start_date end_date : Datetime.datetime)
    (t : list (Frame.Row string)) :
  Retrieval.fetched API_TOKEN requests_get start_date end_date (area_code, dataset_key)
    = inr (Some t) ->
  exists dataset,
    Py.dict_get dataset_key Retrieval.DATASETS = Some dataset /\
    Forall (fun r => Frame.area_code r = area_code /\
                     Frame.dataset r = dataset_key /\
                     Frame.unit r = Retrieval.unit dataset /\
                     Frame.production_type r <> "" /\
                     (dataset_key = "day_ahead_prices" ->
                      Frame.production_type r = "Day-ahead Price")) t.
Proof.
  intros H. destruct (FetchFacts.fetched_inv _ _ _ _ _ _ _ H)
    as [dataset [records [Hd [Hrec [Hne ->]]]]].
  exists dataset. split; [exact Hd|].
  apply Forall_forall. intros r Hr.
  apply FrameFacts.sort_dedup_incl in Hr.
  apply in_concat in Hr. destruct Hr as [rows [Hrows Hr]].
  destruct Hrec as [timeseries Hrec].
  destruct (proj2 (PreprocessingFacts.map_r_in _ _ _ Hrec) _ Hrows) as [series [_ Hs]].
  pose proof (RowFacts.series_records_labelled _ _ _ _ _ Hd Hs) as Hall.
  rewrite Forall_forall in Hall. apply (Hall r Hr).
Qed.

(** The solar table of area "b". *)
Lemma rows_carry_the_request_witness :
  exists t,
    Retrieval.fetched "token" Examples.service Examples.january Examples.february
      ("b", "actual_generation") = inr (Some t) /\
    Forall (fun r => Frame.area_code r = "b" /\ Frame.dataset r = "actual_generation" /\
                     Frame.unit r = "MW" /\ Frame.production_type r <> "") t.
Proof.
  destruct (Retrieval.fetched "token" Examples.service Examples.january Examples.february
              ("b", "actual_generation")) as [e|[t|]] eqn:E;
    try (vm_compute in E; discriminate).
  exists t. split; [reflexivity|].
  destruct (rows_carry_the_request _ _ _ _ _ _ _ E) as [dataset [Hd H]].
  vm_compute in Hd. injection Hd as <-.
  eapply Forall_impl; [|exact H]. simpl. intros r [H1 [H2 [H3 [H4 _]]]]. auto.
Defined.

(** X9. A fetch never returns a table without rows. When a response has
    series but none of their points has a value to read, the frame of no
    record has no timestamp column, and sorting it is a KeyError: the fetch
    raises, where a response without series returns None. So the driver
    skips a unit only on None, and a successful fetch always has rows. *)
Theorem no_usable_point_is_a_key_error
    (API_TOKEN : string)
    (requests_get : string -> list (string * string) -> Py.result Retrieval.response)
    (area_code dataset_key : string) (dataset : Retrieval.dataset_config)
    (start_date end_date : Datetime.datetime) (response : Retrieval.response)
    (data_dict : list (string * Retrieval.xml)) (timeseries : Retrieval.xml)
    (records : list (list (Frame.Row string))) :
  Py.dict_get dataset_key Retrieval.DATASETS = Some dataset ->
  requests_get Retrieval.BASE_URL
    (Retrieval.build_params API_TOKEN dataset area_code start_date end_date) = inr response ->
  Retrieval.status_code response = 200 ->
  Retrieval.document response = inr data_dict ->
  Retrieval.no_timeseries (Retrieval.market_doc_of data_dict) = inr false ->
  Retrieval.subscript (Retrieval.market_doc_of data_dict) "TimeSeries" = inr timeseries ->
  Py.map_r (Retrieval.series_records area_code dataset_key) (Retrieval.as_list timeseries)
    = inr records ->
  (List.concat records = [] ->
   Retrieval.fetched API_TOKEN requests_get start_date end_date (area_code, dataset_key)
     = inl Py.KeyError) /\
  (List.concat records <> [] ->
   exists t, t <> [] /\
     Retrieval.fetched API_TOKEN requests_get start_date end_date (area_code, dataset_key)
       = inr (Some t)).
Proof.
  intros Hd Hr Hs Hdoc Hn Hts Hrec.
  unfold Retrieval.fetched, Retrieval.retrieve_entsoe_data. RetrievalFacts.run.
  cbn [fst snd]. rewrite Hd. cbn [Py.of_option]. rewrite Hr, Hs. cbn [Z.eqb negb].
  rewrite Pos.eqb_refl. cbn [negb]. rewrite Hdoc, Hn, Hts, Hrec. cbn [fst snd].
  split.
  - intros ->. reflexivity.
  - intros Hne. destruct (List.concat records) as [|r rs] eqn:Ec; [congruence|].
    cbn [Retrieval.assemble Py.ret fst snd]. eexists. split; [|reflexivity].
    apply (FrameFacts.sort_dedup_nonempty _ _ FrameFacts.text_order). discriminate.
Qed.

(** A response with one series whose only point has no value. *)
Lemma no_usable_point_is_a_key_error_witness :
  Retrieval.fetched "token" (fun _ _ => inr Examples.valueless)
    Examples.january Examples.february ("b", "actual_load")
  = inl Py.KeyError.
Proof.
  refine (proj1 (no_usable_point_is_a_key_error "token" (fun _ _ => inr Examples.valueless)
                   "b" "actual_load"
                   {| Retrieval.documentType := "A65"; Retrieval.processType := "A16";
                      Retrieval.domain := Retrieval.Domain "outBiddingZone_Domain";
                      Retrieval.unit := "MW" |}
                   Examples.january Examples.february Examples.valueless
                   Examples.valueless_document Examples.valueless_series [[]]
                   _ eq_refl eq_refl eq_refl _ _ _) eq_refl); reflexivity.
Defined.

(** ** File names of the tables and of their metadata *)

Module PathFacts.
Import Py.








End PathFacts.

Module UnitFacts.
Import Py Run Retrieval.



End UnitFacts.



(** ** The yearly merge, group by group *)

Module MergeFacts.
Import Py Run Preprocessing.

Lemma map_r_raises {A B} (f : A -> result B) (l : list A) (x : A) (e : exn) :
  In x l -> f x = inl e -> exists e', map_r f l = inl e'.
Proof.
  induction l as [|a l IH]; [intros []|]. intros [->|Hin] Hx; simpl.
  - rewrite Hx. eauto.
  - destruct (f a) as [e0|b]; [eauto|].
    destruct (IH Hin Hx) as [e' ->]. eauto.
Qed.

Section Env.
Variable read_csv : string -> result (list (Frame.Row string)).
Variable now : Datetime.datetime.

(** What a group does to a trace is what it does to the empty trace, added
    at the end; it sends nothing and does not raise. *)
Lemma merge_group_from (yearly_folder : string) (key : group_key) (files : list string)
    (s : state) :
  merge_group read_csv now yearly_folder key files s =
  (inr tt,
   {| requests := requests s;
      log := (log s ++ log (snd (merge_group read_csv now yearly_folder key files initial)))%list;
      files := (Run.files s
                ++ Run.files (snd (merge_group read_csv now yearly_folder key files initial)))%list
   |}).
Proof.
  destruct key as [[[country bidding_zone] dataset] year].
  unfold merge_group, try_except, mbind, lift, logging, write_file.
  destruct (merged_table read_csv files) as [e|combined_df];
    cbn [fst snd requests log Run.files app].
  - rewrite <- app_assoc, app_nil_r. reflexivity.
  - destruct (yearly_metadata country bidding_zone dataset combined_df files now)
      as [e|metadata]; cbn [fst snd requests log Run.files app];
      rewrite <- ?app_assoc; reflexivity.
Qed.

Lemma merge_groups_from (yearly_folder : string) (groups : list (group_key * list string))
    (s : state) :
  let run := for_each groups
               (fun '(key, files) => merge_group read_csv now yearly_folder key files) s in
  fst run = inr tt /\
  requests (snd run) = requests s /\
  Run.files (snd run) =
    (Run.files s ++
     flat_map (fun g => Run.files (snd (merge_group read_csv now yearly_folder (fst g) (snd g)
                                          initial))) groups)%list.
Proof.
  revert s. induction groups as [|[key files] groups IH]; intros s; cbn [for_each].
  - cbn. now rewrite app_nil_r.
  - unfold mbind. rewrite merge_group_from. cbn [flat_map fst snd].
    match goal with
    | |- context [for_each groups ?body ?s1] => destruct (IH s1) as [H1 [H2 H3]]
    end.
    cbv zeta. split; [exact H1|]. split; [exact H2|].
    rewrite H3. cbn [Run.files]. now rewrite app_assoc.
Qed.

Lemma merge_from (glob_csv : string -> list string) (input_folder output_folder : string)
    (s : state) :
  let run := merge_monthly_to_yearly glob_csv read_csv now input_folder output_folder s in
  fst run = inr tt /\
  requests (snd run) = requests s /\
  Run.files (snd run) =
    (Run.files s ++
     flat_map (fun g => Run.files (snd (merge_group read_csv now output_folder (fst g) (snd g)
                                          initial)))
       (group_files (glob_csv input_folder)))%list.
Proof. unfold merge_monthly_to_yearly. apply merge_groups_from. Qed.

End Env.

End MergeFacts.


(** X12. One monthly file that cannot be read loses the year of its group:
    the group writes no table and no metadata, and the log gains the line
    that starts the merge and one error line. The group itself returns
    without an exception, so the merge goes on with the next group. *)
Theorem unreadable_file_loses_its_group
    (read_csv : string -> Py.result (list (Frame.Row string)))
    (now : Datetime.datetime) (yearly_folder country bidding_zone dataset year : string)
    (files : list string) (f : string) (e : Py.exn) (s : Run.state) :
  In f files ->
  read_csv f = inl e ->
  exists e' started failed,
    Preprocessing.merged_table read_csv files = inl e' /\
    Preprocessing.merge_group read_csv now yearly_folder
      (country, bidding_zone, dataset, year) files s =
    (inr tt,
     {| Run.requests := Run.requests s;
        Run.log := (Run.log s ++ [(Run.INFO, started); (Run.ERROR, failed)])%list;
        Run.files := Run.files s |}).
Proof.
  intros Hin Hf. destruct (MergeFacts.map_r_raises _ _ _ _ Hin Hf) as [e' He'].
  exists e'. do 2 eexists.
  assert (Preprocessing.merged_table read_csv files = inl e') as Hm.
  { unfold Preprocessing.merged_table. rewrite He'. reflexivity. }
  split; [exact Hm|].
  unfold Preprocessing.merge_group, Run.try_except, Run.mbind, Run.lift, Run.logging.
  rewrite Hm. cbn [fst snd Run.requests Run.log Run.files].
  rewrite <- app_assoc. reflexivity.
Qed.

(** The January file, and a March file that is not there. *)
Lemma unreadable_file_loses_its_group_witness :
  Run.files (snd (Preprocessing.merge_group Examples.reader Examples.clock
                    "output/entsoe/yearly" ("DE", "actual", "load", "2024")
                    [Examples.january_file; "output/entsoe/DE_actual_load_20240301_20240401.csv"]
                    Run.initial)) = [].
Proof.
  destruct (unreadable_file_loses_its_group Examples.reader Examples.clock
              "output/entsoe/yearly" "DE" "actual" "load" "2024"
              [Examples.january_file; "output/entsoe/DE_actual_load_20240301_20240401.csv"]
              "output/entsoe/DE_actual_load_20240301_20240401.csv" Py.OSError Run.initial
              (or_intror (or_introl eq_refl)) eq_refl) as [e' [started [failed [_ H]]]].
  rewrite H. reflexivity.
Defined.

(** X13. A group whose monthly files hold no row leaves a yearly table
    without metadata: the empty table is written first, reading the unit of
    its first row is then an IndexError, which is logged, and no metadata
    file follows. *)
Theorem empty_group_leaves_a_table_without_metadata
    (read_csv : string -> Py.result (list (Frame.Row string)))
    (now : Datetime.datetime) (yearly_folder country bidding_zone dataset year : string)
    (files : list string) (tables : list (list (Frame.Row string))) (s : Run.state) :
  Py.map_r read_csv files = inr tables ->
  List.concat tables = [] ->
  let run := Preprocessing.merge_group read_csv now yearly_folder
               (country, bidding_zone, dataset, year) files s in
  fst run = inr tt /\
  Run.files (snd run) =
    (Run.files s ++
     [(Py.path_join yearly_folder
         (country ++ "_" ++ bidding_zone ++ "_" ++ dataset ++ "_" ++ year ++ ".csv")%string,
       Run.YearlyCsv [])])%list /\
  Preprocessing.yearly_metadata country bidding_zone dataset [] files now
    = inl Py.IndexError /\
  exists started failed,
    Run.log (snd run) = (Run.log s ++ [(Run.INFO, started); (Run.ERROR, failed)])%list.
Proof.
  intros Hread Hempty.
  assert (Preprocessing.merged_table read_csv files = inr []) as Hm.
  { unfold Preprocessing.merged_table. rewrite Hread. cbn [Py.bind]. rewrite Hempty.
    reflexivity. }
  unfold Preprocessing.merge_group, Run.try_except, Run.mbind, Run.lift, Run.logging,
    Run.write_file.
  rewrite Hm. cbn [fst snd Run.requests Run.log Run.files Preprocessing.yearly_metadata
                   Py.raise Preprocessing.exn_name].
  split; [reflexivity|]. split; [reflexivity|]. split; [reflexivity|].
  do 2 eexists. rewrite <- app_assoc. reflexivity.
Qed.

(** Two monthly files with a header and no row. *)
Lemma empty_group_leaves_a_table_without_metadata_witness :
  Run.files (snd (Preprocessing.merge_group (fun _ => inr []) Examples.clock
                    "output/entsoe/yearly" ("DE", "actual", "load", "2024")
                    [Examples.january_file; Examples.february_file] Run.initial))
  = [("output/entsoe/yearly/DE_actual_load_2024.csv", Run.YearlyCsv [])].
Proof.
  destruct (empty_group_leaves_a_table_without_metadata (fun _ => inr []) Examples.clock
              "output/entsoe/yearly" "DE" "actual" "load" "2024"
              [Examples.january_file; Examples.february_file] [[]; []] Run.initial
              eq_refl eq_refl) as [_ [H _]].
  rewrite H. reflexivity.
Defined.

(** X14. The merged table of a group, of any number of files, invents no
    row and loses no key: each of its rows is a row of one of the group's
    files with its timestamp parsed and nothing else changed, and each row
    of each file has its key exactly once in the merged table. *)
Theorem merged_rows_come_from_the_files
    (read_csv : string -> Py.result (list (Frame.Row string)))
    (files : list string) (merged : list (Frame.Row Datetime.datetime)) :
  Preprocessing.merged_table read_csv files = inr merged ->
  (forall row, In row merged ->
     exists f table r,
       In f files /\ read_csv f = inr table /\ In r table /\
       Datetime.fromisoformat (Frame.timestamp r) = inr (Frame.timestamp row) /\
       row = Frame.mkRow (Frame.timestamp row) (Frame.area_code r) (Frame.dataset r)
               (Frame.production_type r) (Frame.value r) (Frame.unit r)) /\
  (forall f table r,
     In f files -> read_csv f = inr table -> In r table ->
     exists row,
       Preprocessing.parse_row r = inr row /\
       List.length
         (filter (fun x => Frame.key_eqb Frame.instant_eqb (Frame.key row) (Frame.key x))
            merged) = 1%nat).
Proof.
  unfold Preprocessing.merged_table, Py.bind.
  destruct (Py.map_r read_csv files) as [e|tables] eqn:Er; [discriminate|].
  destruct (Preprocessing.to_datetime (List.concat tables)) as [e|c] eqn:Ec; [discriminate|].
  intros H. injection H as <-.
  apply PreprocessingFacts.to_datetime_rows in Ec.
  destruct (PreprocessingFacts.map_r_in _ _ _ Ec) as [Hto Hfrom].
  destruct (PreprocessingFacts.map_r_in _ _ _ Er) as [Hrto Hrfrom].
  split.
  - intros row Hrow. apply FrameFacts.sort_dedup_incl in Hrow.
    destruct (Hfrom row Hrow) as [r [Hr Hp]].
    apply in_concat in Hr. destruct Hr as [table [Ht Hr]].
    destruct (Hrfrom table Ht) as [f [Hf Hread]].
    exists f, table, r. split; [exact Hf|]. split; [exact Hread|]. split; [exact Hr|].
    unfold Preprocessing.parse_row, Py.bind in Hp.
    destruct (Datetime.fromisoformat (Frame.timestamp r)) as [e|ts]; [discriminate|].
    unfold Py.ret in Hp. injection Hp as <-. split; reflexivity.
  - intros f table r Hf Hread Hr.
    destruct (Hrto f Hf) as [table' [Hread' Ht]].
    assert (table' = table) as -> by congruence.
    assert (In r (List.concat tables)) as Hin by (apply in_concat; eauto).
    destruct (Hto r Hin) as [row [Hp Hrow]].
    exists row. split; [exact Hp|].
    apply FrameFacts.sort_dedup_once; [apply FrameFacts.instant_order|].
    exists row. split; [exact Hrow|].
    apply (FrameFacts.key_eqb_refl _ _ FrameFacts.instant_order).
Qed.

(** The two monthly load files of 2024: the merged rows are load rows. *)
Lemma merged_rows_come_from_the_files_witness :
  exists merged,
    Preprocessing.merged_table Examples.reader [Examples.january_file; Examples.february_file]
      = inr merged /\
    forall row, In row merged -> Frame.dataset row = "actual_load".
Proof.
  destruct (Preprocessing.merged_table Examples.reader
              [Examples.january_file; Examples.february_file]) as [e|merged] eqn:E;
    [vm_compute in E; discriminate|].
  exists merged. split; [reflexivity|]. intros row Hrow.
  destruct (proj1 (merged_rows_come_from_the_files _ _ _ E) row Hrow)
    as [f [table [r [Hf [Hread [Hr [_ ->]]]]]]].
  cbn [Frame.dataset].
  destruct Hf as [<-|[<-|[]]]; vm_compute in Hread; injection Hread as <-;
    repeat (destruct Hr as [<-|Hr]; [reflexivity|]); destruct Hr.
Defined.

(** ** The two ENTSO-E blocks of [main] *)

Module MainFacts.
Import Py Run Main.

Lemma range_cons (lo hi : Z) : lo < hi -> range lo hi = lo :: range (lo + 1) hi.
Proof.
  intros H. unfold range.
  replace (Z.to_nat (hi - lo)) with (S (Z.to_nat (hi - (lo + 1)))) by lia.
  cbn [seq List.map]. f_equal; [lia|].
  rewrite <- seq_shift, map_map. apply map_ext. intros i. lia.
Qed.

(** A text with a letter of the alphabet in it is no integer in base ten. *)
Definition letter (c : ascii) : bool :=
  let n := nat_of_ascii c in
  ((65 <=? n) && (n <=? 90) || (97 <=? n) && (n <=? 122))%nat.

Fixpoint has_letter (s : string) : bool :=
  match s with
  | EmptyString => false
  | String c rest => letter c || has_letter rest
  end.

Lemma letter_no_digit (c : ascii) : letter c = true -> digit_of c = None.
Proof.
  destruct c as [[] [] [] [] [] [] [] []]; intros H; try discriminate H; reflexivity.
Qed.

Lemma digits_value_letter (s : string) (acc : Z) :
  has_letter s = true -> digits_value acc s = None.
Proof.
  revert acc. induction s as [|c s IH]; intros acc; [discriminate|].
  cbn [has_letter digits_value]. intros H. apply orb_prop in H.
  destruct (digit_of c) as [d|] eqn:Ed; [|reflexivity].
  destruct H as [H|H]; [apply letter_no_digit in H; congruence|].
  apply IH, H.
Qed.

Lemma nat_literal_letter (s : string) : has_letter s = true -> nat_literal s = None.
Proof.
  intros H. destruct s as [|c s]; [discriminate|].
  unfold nat_literal. apply digits_value_letter, H.
Qed.

Lemma int_of_string_shape (s : string) :
  int_of_string s = of_option ValueError (nat_literal s) \/
  (exists rest, s = String "-" rest /\
     int_of_string s = of_option ValueError (option_map Z.opp (nat_literal rest))) \/
  (exists rest, s = String "+" rest /\
     int_of_string s = of_option ValueError (nat_literal rest)).
Proof.
  destruct s as [|[[] [] [] [] [] [] [] []] rest];
    first [ left; reflexivity
          | right; left; eexists; split; reflexivity
          | right; right; eexists; split; reflexivity ].
Qed.

Lemma int_of_string_letter (s : string) :
  has_letter s = true -> int_of_string s = inl ValueError.
Proof.
  intros H. destruct (int_of_string_shape s) as [->|[[rest [-> ->]]|[rest [-> ->]]]].
  - now rewrite nat_literal_letter.
  - cbn [has_letter letter orb] in H. now rewrite nat_literal_letter.
  - cbn [has_letter letter orb] in H. now rewrite nat_literal_letter.
Qed.

(** A guarded block returns, whatever its body does. *)
Lemma try_logged (body : M unit) (msg : exn -> string) (s : state) :
  fst (try_except body (fun e => logging ERROR (msg e)) s) = inr tt.
Proof.
  unfold try_except. destruct (body s) as [[e|[]] s']; reflexivity.
Qed.

End MainFacts.

(** X15. Neither ENTSO-E block of main raises, whatever the variables of
    the process, the service and the files are: an exception of the
    retrieval is logged and the preprocessing still runs, on the trace the
    retrieval left. The preprocessing block sends no request. *)
Theorem entsoe_blocks_never_raise
    (getenv : string -> option string) (API_TOKEN : string)
    (requests_get : string -> list (string * string) -> Py.result Retrieval.response)
    (now : Datetime.datetime) (glob_csv : string -> list string)
    (read_csv : string -> Py.result (list (Frame.Row string))) (s : Run.state) :
  let retrieval := Main.entsoe_retrieval getenv API_TOKEN requests_get now s in
  let preprocessing := Main.entsoe_preprocessing getenv now glob_csv read_csv in
  fst retrieval = inr tt /\
  fst (preprocessing s) = inr tt /\
  Run.requests (snd (preprocessing s)) = Run.requests s /\
  Main.main_entsoe getenv API_TOKEN requests_get now glob_csv read_csv s
    = preprocessing (snd retrieval).
Proof.
  cbv zeta. split; [|split; [|split]].
  - unfold Main.entsoe_retrieval. destruct (Main.flag _); [|reflexivity].
    apply MainFacts.try_logged.
  - unfold Main.entsoe_preprocessing. destruct (Main.flag _); [|reflexivity].
    apply MainFacts.try_logged.
  - unfold Main.entsoe_preprocessing. destruct (Main.flag _); [|reflexivity].
    unfold Run.try_except, Run.mbind, Run.logging.
    match goal with
    | |- context [Preprocessing.merge_monthly_to_yearly ?g ?r ?n ?i ?o ?s1] =>
        destruct (MergeFacts.merge_from r n g i o s1) as [H1 [H2 _]];
        destruct (Preprocessing.merge_monthly_to_yearly g r n i o s1) as [[e|[]] s2]
    end; cbn [fst snd Run.requests] in *; [discriminate|exact H2].
  - unfold Main.main_entsoe, Run.mbind.
    assert (fst (Main.entsoe_retrieval getenv API_TOKEN requests_get now s) = inr tt) as H.
    { unfold Main.entsoe_retrieval. destruct (Main.flag _); [|reflexivity].
      apply MainFacts.try_logged. }
    destruct (Main.entsoe_retrieval getenv API_TOKEN requests_get now s) as [[e|[]] s'];
      [discriminate|reflexivity].
Qed.

(** X16. An exception in a year ends the retrieval of all years: the guard
    of the block is around the loop over the years, not inside it. When the
    first year raises, the block returns with the trace of that year and one
    error line more; the years after it are not asked for. *)
Theorem first_exception_ends_the_retrieval
    (getenv : string -> option string) (API_TOKEN : string)
    (requests_get : string -> list (string * string) -> Py.result Retrieval.response)
    (now : Datetime.datetime) (start_year end_year : Z) (e : Py.exn) (s : Run.state) :
  Main.flag (getenv "RUN_ENTSOE") = true ->
  Main.int_setting (getenv "ENTSOE_START_YEAR") 2021 = inr start_year ->
  Main.int_setting (getenv "ENTSOE_END_YEAR") 2024 = inr end_year ->
  start_year <= end_year ->
  let started :=
    snd (Run.logging Run.INFO
           ("--- ENTSO-E retrieval for year: " ++ Py.str_int start_year ++ " ---") s) in
  let year_run :=
    Retrieval.retrieve_monthly_entsoe_datasets API_TOKEN requests_get now Main.EU_COUNTRIES
      Main.selected_datasets start_year "output/entsoe" started in
  fst year_run = inl e ->
  exists failed,
    Main.entsoe_retrieval getenv API_TOKEN requests_get now s =
    (inr tt,
     {| Run.requests := Run.requests (snd year_run);
        Run.log := (Run.log (snd year_run) ++ [(Run.ERROR, failed)])%list;
        Run.files := Run.files (snd year_run) |}).
Proof.
  intros Hflag Hstart Hend Hle. cbv zeta. intros Hrun.
  unfold Main.entsoe_retrieval. rewrite Hflag.
  unfold Run.try_except, Run.mbind at 1 2, Run.lift. rewrite Hstart, Hend.
  rewrite MainFacts.range_cons by lia. cbn [Run.for_each].
  unfold Run.mbind at 1 2 3. unfold Run.logging in *.
  cbn [fst snd] in *.
  match goal with
  | |- context [Retrieval.retrieve_monthly_entsoe_datasets ?a ?b ?c ?d ?ds ?y ?o ?s1] =>
      destruct (Retrieval.retrieve_monthly_entsoe_datasets a b c d ds y o s1)
        as [[e'|[]] s']
  end; cbn [fst snd] in *; [|discriminate].
  eexists. reflexivity.
Qed.

(** The default years, and a network that fails at once: the one request of
    the first unit of January 2021 is all that is sent. *)
Lemma first_exception_ends_the_retrieval_witness :
  List.length
    (Run.requests
       (snd (Main.entsoe_retrieval (fun _ => None) "token"
               (fun _ _ => inl Py.RequestException) Examples.clock Run.initial))) = 1%nat.
Proof.
  destruct (first_exception_ends_the_retrieval (fun _ => None) "token"
              (fun _ _ => inl Py.RequestException) Examples.clock 2021 2024
              Py.RequestException Run.initial eq_refl eq_refl eq_refl ltac:(lia) eq_refl)
    as [failed H].
  rewrite H. reflexivity.
Defined.

(** X17. A year setting with a letter in it is no integer, and the
    ValueError is caught inside the block: the retrieval sends no request
    and writes no file, and the log gains one error line. *)
Theorem unreadable_year_sends_nothing
    (getenv : string -> option string) (API_TOKEN : string)
    (requests_get : string -> list (string * string) -> Py.result Retrieval.response)
    (now : Datetime.datetime) (name value : string) (s : Run.state) :
  Main.flag (getenv "RUN_ENTSOE") = true ->
  name = "ENTSOE_START_YEAR" \/ name = "ENTSOE_END_YEAR" ->
  getenv name = Some value ->
  MainFacts.has_letter value = true ->
  exists failed,
    Main.entsoe_retrieval getenv API_TOKEN requests_get now s =
    (inr tt,
     {| Run.requests := Run.requests s;
        Run.log := (Run.log s ++ [(Run.ERROR, failed)])%list;
        Run.files := Run.files s |}).
Proof.
  intros Hflag Hname Hget Hletter. unfold Main.entsoe_retrieval. rewrite Hflag.
  unfold Run.try_except, Run.mbind at 1 2, Run.lift.
  apply MainFacts.int_of_string_letter in Hletter.
  destruct Hname as [->| ->]; rewrite Hget; cbn [Main.int_setting].
  - rewrite Hletter. eexists. reflexivity.
  - destruct (Main.int_setting (getenv "ENTSOE_START_YEAR") 2021) as [e1|y1].
    + eexists. reflexivity.
    + rewrite Hletter. eexists. reflexivity.
Qed.

(** A start year given in words. *)
Lemma unreadable_year_sends_nothing_witness :
  Run.requests
    (snd (Main.entsoe_retrieval
            (fun name => if String.eqb name "ENTSOE_START_YEAR" then Some "twenty" else None)
            "token" Examples.service Examples.clock Run.initial)) = [].
Proof.
  destruct (unreadable_year_sends_nothing
              (fun name => if String.eqb name "ENTSOE_START_YEAR" then Some "twenty" else None)
              "token" Examples.service Examples.clock "ENTSOE_START_YEAR" "twenty"
              Run.initial eq_refl (or_introl eq_refl) eq_refl eq_refl) as [failed H].
  rewrite H. reflexivity.
Defined.

(** X18. A year outside 1..9999 (and within the range of a C int, beyond
    which the constructor fails otherwise) is a ValueError of the first date
    the monthly driver builds: nothing is logged, requested or written. *)
Theorem year_out_of_range_is_a_value_error
    (API_TOKEN : string)
    (requests_get : string -> list (string * string) -> Py.result Retrieval.response)
    (now : Datetime.datetime) (countries : list (string * string)) (datasets : list string)
    (year : Z) (output_folder : string) (s : Run.state) :
  - 2 ^ 31 <= year < 1 \/ 9999 < year < 2 ^ 31 ->
  Retrieval.retrieve_monthly_entsoe_datasets API_TOKEN requests_get now countries datasets
    year output_folder s = (inl Py.ValueError, s).
Proof.
  intros Hy. unfold Retrieval.retrieve_monthly_entsoe_datasets.
  cbn [seq List.map Run.for_each]. unfold Run.mbind at 1 2, Run.lift.
  assert (Datetime.make year (Z.of_nat 1) 1 0 0 0 (Some 0) = None) as ->.
  { unfold Datetime.make.
    destruct Hy as [[_ Hy]|[Hy _]].
    - apply Z.leb_gt in Hy. rewrite Hy. reflexivity.
    - apply Z.leb_gt in Hy. rewrite Hy. rewrite andb_false_r. reflexivity. }
  reflexivity.
Qed.

(** The year 0. *)
Lemma year_out_of_range_is_a_value_error_witness :
  Retrieval.retrieve_monthly_entsoe_datasets "token" Examples.service Examples.clock
    [("B", "b")] ["actual_load"] 0 "output/entsoe" Run.initial
  = (inl Py.ValueError, Run.initial).
Proof.
  apply (year_out_of_range_is_a_value_error "token" Examples.service Examples.clock
           [("B", "b")] ["actual_load"] 0 "output/entsoe" Run.initial). left. lia.
Defined.
